(** * KEV dashboard: the filter-and-aggregate callback of [main.py]

    The development embeds the start-up code of [main.py] (lines 7-12) and
    the Dash callback [update_graph] (lines 80-108).  Frames live in an
    interpreter heap, the callback is a computation in a state-and-exception
    monad, and the pandas operations the callback relies on are modelled by
    the functions under the heading "pandas".  The option lists of lines
    15-18 and the values of the CWE dropdown (line 47) are embedded as
    functions of [df]; the rest of the layout and the styling of the
    figure only feed the page and are left out. *)

From Stdlib Require Import ZArith List String Ascii Bool Lia Permutation Sorted.
From stdpp Require Import base option list.

Local Open Scope string_scope.
Local Open Scope list_scope.

(** ** Python strings *)

Module PyStr.

(** [sub in s] on Python strings: [sub] occurs in [s] as a contiguous
    run of characters. *)
Fixpoint contains (sub s : string) : bool :=
  String.prefix sub s ||
  match s with
  | EmptyString => false
  | String _ s' => contains sub s'
  end.

(** [str.isspace] on the ASCII range.  Strings are byte strings here:
    [strip] and [lower] leave every byte above 127 alone. *)
Definition is_space (c : ascii) : bool :=
  let n := nat_of_ascii c in
  (((9 <=? n) && (n <=? 13)) || ((28 <=? n) && (n <=? 32)))%nat.

Fixpoint lstrip (s : string) : string :=
  match s with
  | EmptyString => EmptyString
  | String c s' => if is_space c then lstrip s' else s
  end.

Fixpoint rstrip (s : string) : string :=
  match s with
  | EmptyString => EmptyString
  | String c s' =>
      match rstrip s' with
      | EmptyString => if is_space c then EmptyString else String c EmptyString
      | t => String c t
      end
  end.

Definition strip (s : string) : string := rstrip (lstrip s).

(** [str.lower] on the ASCII range: [A]-[Z] move to [a]-[z]. *)
Definition lower_char (c : ascii) : ascii :=
  let n := nat_of_ascii c in
  if ((65 <=? n) && (n <=? 90))%nat then ascii_of_nat (n + 32) else c.

Fixpoint lower (s : string) : string :=
  match s with
  | EmptyString => EmptyString
  | String c s' => String (lower_char c) (lower s')
  end.

End PyStr.

(** ** Dates *)

(** A parsed [dateAdded] cell.  The callback reads [.dt.year] and
    [.dt.to_period('M')] only, so the time of day is not represented. *)
Record Timestamp := { year : Z; month : Z; day : Z }.

(** A pandas [Period] of monthly frequency. *)
Record Period := { p_year : Z; p_month : Z }.

Definition to_period_M (t : Timestamp) : Period :=
  {| p_year := year t; p_month := month t |}.

(** [Period.to_timestamp()]: the first day of the month. *)
Definition to_timestamp (p : Period) : Timestamp :=
  {| year := p_year p; month := p_month p; day := 1 |}.

(** Periods are ordered chronologically. *)
Definition period_ltb (p q : Period) : bool :=
  (p_year p <? p_year q)%Z || ((p_year p =? p_year q)%Z && (p_month p <? p_month q)%Z).

Definition period_eqb (p q : Period) : bool :=
  (p_year p =? p_year q)%Z && (p_month p =? p_month q)%Z.

Definition period_lt (p q : Period) : Prop := period_ltb p q = true.

(** ** Frames *)

(** One row of the KEV table.  Two columns change their dtype during
    start-up, so the row is generic in them: [D] is the dtype of
    [dateAdded] and [R] the dtype of [knownRansomwareCampaignUse].  A
    missing cell ([NaN], [NaT]) is [None]. *)
Record Row_ (D R : Type) := mkRow {
  dateAdded : D;
  vendorProject : option string;
  cwes : option string;
  knownRansomwareCampaignUse : R
}.
Arguments mkRow {D R} _ _ _ _.
Arguments dateAdded {D R} _.
Arguments vendorProject {D R} _.
Arguments cwes {D R} _.
Arguments knownRansomwareCampaignUse {D R} _.

(** A row as [pd.read_csv] yields it: text cells, possibly missing. *)
Definition RawRow := Row_ (option string) (option string).
(** A row of the module-level [df] once start-up is over. *)
Definition Row := Row_ (option Timestamp) string.

(** A frame: its column labels and its rows.  The rows of a frame whose
    label list is empty still stand for its index. *)
Record DataFrame_ (R : Type) := mkFrame { columns : list string; rows : list R }.
Arguments mkFrame {R} _ _.
Arguments columns {R} _.
Arguments rows {R} _.

Definition RawFrame := DataFrame_ RawRow.
Definition DataFrame := DataFrame_ Row.

Inductive exn :=
| KeyError (label : string)
| TypeError (what : string).

Definition result (A : Type) : Type := exn + A.

Definition has_column {R} (f : DataFrame_ R) (label : string) : bool :=
  existsb (String.eqb label) (columns f).

(** [f[label]]: the column as a list of cells; [KeyError] when the frame
    has no such label. *)
Definition getitem_col {R A} (f : DataFrame_ R) (label : string) (cell : R -> A)
  : result (list A) :=
  if has_column f label then inr (map cell (rows f)) else inl (KeyError label).

(** ** pandas *)

Inductive dtype := dt_bool | dt_object.

(** A Series of Python booleans, with the dtype pandas gave it. *)
Record BoolSeries := mkSeries { series_dtype : dtype; series_values : list bool }.

(** [Series.isin(values)]: a missing cell is in no list of labels. *)
Definition isin {A} (eqb : A -> A -> bool) (col : list (option A)) (values : list A)
  : BoolSeries :=
  mkSeries dt_bool
    (map (fun c => match c with Some v => existsb (eqb v) values | None => false end) col).

(** [col == v] and [col != v] on a text column. *)
Definition series_eq (col : list string) (v : string) : BoolSeries :=
  mkSeries dt_bool (map (fun c => String.eqb c v) col).
Definition series_ne (col : list string) (v : string) : BoolSeries :=
  mkSeries dt_bool (map (fun c => negb (String.eqb c v)) col).

(** [Series.apply(f)] on an object column with [f] returning booleans.
    On an empty Series pandas does not call [f]: [SeriesApply.apply]
    starts with [if len(obj) == 0: return self.apply_empty_result()],
    which builds an empty Series of the dtype of the input, here
    [object].  Otherwise the dtype is inferred from the results, here
    [bool]. *)
Definition series_apply {A} (f : A -> bool) (col : list A) : BoolSeries :=
  match col with
  | [] => mkSeries dt_object []
  | _ => mkSeries dt_bool (map f col)
  end.

(** [pandas.core.common.is_bool_indexer]: a Series of dtype bool is one;
    a Series of dtype object is one when [lib.is_bool_array] accepts its
    values, and the validator behind [lib.is_bool_array] answers [False]
    for an array of length 0 before it looks at any value. *)
Definition is_bool_indexer (key : BoolSeries) : bool :=
  match series_dtype key with
  | dt_bool => true
  | dt_object => negb (Nat.eqb (List.length (series_values key)) 0)
  end.

Fixpoint bool_select {A} (l : list A) (mask : list bool) : list A :=
  match l, mask with
  | x :: l', b :: mask' => if b then x :: bool_select l' mask' else bool_select l' mask'
  | _, _ => []
  end.

(** [f[key]] with a Series as the key ([DataFrame.__getitem__]).  A
    boolean indexer selects rows ([_getitem_bool_array]).  Any other
    list-like key is looked up among the column labels; the only such key
    the embedding can build is the empty object Series, which names no
    label: the result has no column and the index of [f]. *)
Definition getitem_series {R} (f : DataFrame_ R) (key : BoolSeries) : DataFrame_ R :=
  if is_bool_indexer key
  then mkFrame (columns f) (bool_select (rows f) (series_values key))
  else mkFrame [] (rows f).

(** [f.empty]: some axis has length 0. *)
Definition empty {R} (f : DataFrame_ R) : bool :=
  match columns f, rows f with
  | _ :: _, _ :: _ => false
  | _, _ => true
  end.

(** [.dt.year] and [.dt.to_period('M')] on a datetime column. *)
Definition dt_year (col : list (option Timestamp)) : list (option Z) :=
  map (option_map year) col.
Definition dt_to_period (col : list (option Timestamp)) : list (option Period) :=
  map (option_map to_period_M) col.

(** [str(x)] of a text cell; the missing cell is the float [nan]. *)
Definition str (x : option string) : string :=
  match x with
  | Some s => s
  | None => "nan"
  end.

(** [groupby(keys).size()]: one entry per distinct key, in ascending key
    order, with the number of rows that carry the key; rows whose key is
    missing are left out ([sort=True], [dropna=True] are the defaults). *)
Fixpoint bump (k : Period) (acc : list (Period * nat)) : list (Period * nat) :=
  match acc with
  | [] => [(k, 1)]
  | (k', n) :: rest =>
      if period_ltb k k' then (k, 1) :: acc
      else if period_eqb k k' then (k', S n) :: rest
      else (k', n) :: bump k rest
  end.

Definition groupby_size (keys : list (option Period)) : list (Period * nat) :=
  fold_right (fun k acc => match k with Some p => bump p acc | None => acc end) [] keys.

(** ** Exceptions and the interpreter state *)

Definition rbind {A B} (r : result A) (k : A -> result B) : result B :=
  match r with
  | inl e => inl e
  | inr a => k a
  end.

#[global] Instance result_ret : MRet result := fun _ a => inr a.
#[global] Instance result_bind : MBind result := fun _ _ k r => rbind r k.

Definition loc := nat.

(** The [dateAdded] cell of the grouped frame: a [Period] as [groupby]
    leaves it, a [Timestamp] once line 99 has overwritten the column. *)
Inductive month_cell :=
| PeriodCell (p : Period)
| TimestampCell (t : Timestamp).

Inductive pyobj :=
| ODataFrame (f : DataFrame)
| OCounts (c : list (month_cell * nat)).

(** The module global [df] and the heap of frame objects. *)
Record State := mkState { g_df : loc; heap : list pyobj }.

Definition M (A : Type) : Type := State -> result A * State.

#[global] Instance M_ret : MRet M := fun _ a s => (inr a, s).
#[global] Instance M_bind : MBind M := fun _ _ k m s =>
  match m s with
  | (inl e, s') => (inl e, s')
  | (inr a, s') => k a s'
  end.

Definition lift {A} (r : result A) : M A := fun s => (r, s).

Definition global_df : M loc := fun s => (inr (g_df s), s).

Definition new (o : pyobj) : M loc :=
  fun s => (inr (List.length (heap s)), mkState (g_df s) (heap s ++ [o])).

Definition frame_at (l : loc) : M DataFrame :=
  fun s =>
    match heap s !! l with
    | Some (ODataFrame f) => (inr f, s)
    | _ => (inl (TypeError "DataFrame"), s)
    end.

Definition counts_at (l : loc) : M (list (month_cell * nat)) :=
  fun s =>
    match heap s !! l with
    | Some (OCounts c) => (inr c, s)
    | _ => (inl (TypeError "DataFrame"), s)
    end.

(** [obj[label] = col] on the grouped frame: the object at [l] is
    updated in place. *)
Definition setitem_counts (l : loc) (col : list month_cell) : M unit :=
  fun s =>
    match heap s !! l with
    | Some (OCounts c) =>
        (inr tt, mkState (g_df s) (<[l := OCounts (zip_with (fun x r => (x, snd r)) col c)]> (heap s)))
    | _ => (inl (TypeError "DataFrame"), s)
    end.

(** [f.copy()]: a new object with the same contents. *)
Definition DataFrame_copy (l : loc) : M loc :=
  f ← frame_at l; new (ODataFrame f).

(** [f[key]] where [key] is computed from [f] itself: a new object. *)
Definition getitem (l : loc) (key : DataFrame -> result BoolSeries) : M loc :=
  f ← frame_at l;
  k ← lift (key f);
  new (ODataFrame (getitem_series f k)).

(** [.dt.to_timestamp()] on the grouped column. *)
Definition dt_to_timestamp (col : list month_cell) : result (list month_cell) :=
  mapM (M := result)
    (fun c => match c with
              | PeriodCell p => inr (TimestampCell (to_timestamp p))
              | TimestampCell _ => inl (TypeError "to_timestamp")
              end) col.

(** ** Figures *)

(** What [px.line] is given: the title and the points of its one trace
    ([x = dateAdded], [y = cve_count]).  Styling is not represented. *)
Record Figure := mkFigure { title : string; data : list (Timestamp * nat) }.

Definition px_line_title (t : string) : Figure := mkFigure t [].

Definition px_line (c : list (month_cell * nat)) (t : string) : result Figure :=
  pts ← mapM (M := result)
          (fun r => match fst r with
                    | TimestampCell x => inr (x, snd r)
                    | PeriodCell _ => inl (TypeError "Period")
                    end) c;
  mret (mkFigure t pts).

(** ** Start-up: lines 7-12 *)

Definition with_dateAdded {D D' R} (r : Row_ D R) (d : D') : Row_ D' R :=
  mkRow d (vendorProject r) (cwes r) (knownRansomwareCampaignUse r).

Definition with_ransomware {D R R'} (r : Row_ D R) (x : R') : Row_ D R' :=
  mkRow (dateAdded r) (vendorProject r) (cwes r) x.

Section Startup.

(** [pd.to_datetime(col, errors='coerce')] on a text column: one cell
    for each cell of [col], [NaT] where pandas reads no date.  pandas
    may settle the date format on the column as a whole, so the parser
    takes the column and not the cell. *)
Variable pd_to_datetime : list (option string) -> list (option Timestamp).

(** [f.dropna(subset=['dateAdded'])]. *)
Definition dropna_dateAdded {A R} (f : DataFrame_ (Row_ (option A) R))
  : DataFrame_ (Row_ (option A) R) :=
  mkFrame (columns f)
    (List.filter (fun r => match dateAdded r with Some _ => true | None => false end) (rows f)).

(** [.astype(str).str.strip().str.lower()] on one cell. *)
Definition normalize (c : option string) : string :=
  PyStr.lower (PyStr.strip (str c)).

Definition load (csv : RawFrame) : result DataFrame :=
  let df := csv in
  col ← getitem_col df "dateAdded" dateAdded;
  let df := mkFrame (columns df) (zip_with with_dateAdded (rows df) (pd_to_datetime col)) in
  let df := dropna_dateAdded df in
  col ← getitem_col df "knownRansomwareCampaignUse" knownRansomwareCampaignUse;
  mret (mkFrame (columns df) (zip_with with_ransomware (rows df) (map normalize col))).

(** The interpreter once the module body has run: [df] is the only
    frame alive. *)
Definition boot (csv : RawFrame) : result State :=
  df ← load csv;
  mret (mkState 0 [ODataFrame df]).

End Startup.

(** ** The callback: lines 80-108 *)

(** [if xs:] on a dropdown value, which is [None] or a list. *)
Definition truthy {A} (xs : option (list A)) : bool :=
  match xs with
  | Some (_ :: _) => true
  | _ => false
  end.

Definition items {A} (xs : option (list A)) : list A :=
  match xs with
  | Some l => l
  | None => []
  end.

(** [lambda x: any(cwe in str(x) for cwe in selected_cwes)]. *)
Definition cwe_lambda (selected_cwes : list string) (x : option string) : bool :=
  existsb (fun cwe => PyStr.contains cwe (str x)) selected_cwes.

Definition year_key (selected_years : list Z) (f : DataFrame) : result BoolSeries :=
  col ← getitem_col f "dateAdded" dateAdded;
  mret (isin Z.eqb (dt_year col) selected_years).

Definition vendor_key (selected_vendors : list string) (f : DataFrame) : result BoolSeries :=
  col ← getitem_col f "vendorProject" vendorProject;
  mret (isin String.eqb col selected_vendors).

Definition cwe_key (selected_cwes : list string) (f : DataFrame) : result BoolSeries :=
  col ← getitem_col f "cwes" cwes;
  mret (series_apply (cwe_lambda selected_cwes) col).

Definition known_key (f : DataFrame) : result BoolSeries :=
  col ← getitem_col f "knownRansomwareCampaignUse" knownRansomwareCampaignUse;
  mret (series_eq col "known").

Definition unknown_key (f : DataFrame) : result BoolSeries :=
  col ← getitem_col f "knownRansomwareCampaignUse" knownRansomwareCampaignUse;
  mret (series_ne col "known").

(** Lines 81-93: the frame the filters leave. *)
Definition filter_frame (selected_years : option (list Z))
    (selected_vendors selected_cwes : option (list string))
    (ransomware_filter : string) : M loc :=
  df ← global_df;
  filtered_df ← DataFrame_copy df;
  filtered_df ← (if truthy selected_years
                 then getitem filtered_df (year_key (items selected_years))
                 else mret filtered_df);
  filtered_df ← (if truthy selected_vendors
                 then getitem filtered_df (vendor_key (items selected_vendors))
                 else mret filtered_df);
  filtered_df ← (if truthy selected_cwes
                 then getitem filtered_df (cwe_key (items selected_cwes))
                 else mret filtered_df);
  if String.eqb ransomware_filter "Known"
  then getitem filtered_df known_key
  else if String.eqb ransomware_filter "Unknown"
  then getitem filtered_df unknown_key
  else mret filtered_df.

(** Lines 98-99: the grouped frame. *)
Definition monthly_counts_of (filtered_df : loc) : M loc :=
  f ← frame_at filtered_df;
  keys ← lift (getitem_col f "dateAdded" dateAdded);
  monthly_counts ← new (OCounts (map (fun kn => (PeriodCell (fst kn), snd kn))
                                    (groupby_size (dt_to_period keys))));
  c ← counts_at monthly_counts;
  col ← lift (dt_to_timestamp (map fst c));
  _ ← setitem_counts monthly_counts col;
  mret monthly_counts.

Definition update_graph (selected_years : option (list Z))
    (selected_vendors selected_cwes : option (list string))
    (ransomware_filter : string) : M Figure :=
  filtered_df ← filter_frame selected_years selected_vendors selected_cwes ransomware_filter;
  f ← frame_at filtered_df;
  if empty f
  then mret (px_line_title "No data matches the selected filters.")
  else
    monthly_counts ← monthly_counts_of filtered_df;
    c ← counts_at monthly_counts;
    lift (px_line c "Monthly Count of Exploited CVEs").

(** ** The vocabulary of the specification *)

Module Spec.

(** The year predicate: active when [years] is non-empty, and then the
    year of [dateAdded] is a member of [years]. *)
Definition year_ok (years : option (list Z)) (r : Row) : bool :=
  negb (truthy years) ||
  match dateAdded r with
  | Some t => existsb (Z.eqb (year t)) (items years)
  | None => false
  end.

(** The vendor predicate: active when [vendors] is non-empty, and then
    [vendorProject] is a member of [vendors]. *)
Definition vendor_ok (vendors : option (list string)) (r : Row) : bool :=
  negb (truthy vendors) ||
  match vendorProject r with
  | Some v => existsb (String.eqb v) (items vendors)
  | None => false
  end.

(** The CWE predicate: active when [cwes] is non-empty, and then some
    fragment is a substring of the text of the [cwes] cell. *)
Definition cwe_ok (fragments : option (list string)) (r : Row) : bool :=
  negb (truthy fragments) ||
  existsb (fun frag => PyStr.contains frag (str (cwes r))) (items fragments).

(** The ransomware mode: [Known], [Unknown], and anything else for
    [All]. *)
Definition ransomware_ok (mode : string) (r : Row) : bool :=
  if String.eqb mode "Known" then String.eqb (knownRansomwareCampaignUse r) "known"
  else if String.eqb mode "Unknown" then negb (String.eqb (knownRansomwareCampaignUse r) "known")
  else true.

(** The normalized ransomware field equals ["known"]. *)
Definition is_known (r : Row) : bool :=
  String.eqb (knownRansomwareCampaignUse r) "known".

Definition satisfies (years : option (list Z)) (vendors fragments : option (list string))
    (mode : string) (r : Row) : bool :=
  year_ok years r && vendor_ok vendors r && cwe_ok fragments r && ransomware_ok mode r.

(** The month of a record. *)
Definition in_month (p : Period) (r : Row) : bool :=
  match dateAdded r with
  | Some t => period_eqb (to_period_M t) p
  | None => false
  end.

(** The sum of the counts of a series. *)
Definition sum_counts (series : list (Timestamp * nat)) : nat :=
  list_sum (map snd series).

(** The count a series gives for a month, 0 when the month has no
    entry. *)
Definition month_count (series : list (Timestamp * nat)) (p : Period) : nat :=
  list_sum (map snd (List.filter (fun e => period_eqb (to_period_M (fst e)) p) series)).

Definition month_lt (a b : Timestamp * nat) : Prop :=
  period_lt (to_period_M (fst a)) (to_period_M (fst b)).

End Spec.

(** ** Conditions on the interpreter state *)

(** The module global [df] is bound to the frame [f]. *)
Definition df_is (s : State) (f : DataFrame) : Prop :=
  heap s !! g_df s = Some (ODataFrame f).

(** The four columns the callback reads are present. *)
Definition has_kev_columns {R} (f : DataFrame_ R) : bool :=
  has_column f "dateAdded" && has_column f "vendorProject" &&
  has_column f "cwes" && has_column f "knownRansomwareCampaignUse".

(** No [dateAdded] cell is [NaT]. *)
Definition dated {R} (f : DataFrame_ (Row_ (option Timestamp) R)) : Prop :=
  Forall (fun r => dateAdded r <> None) (rows f).

(** [s'] is [s] after allocations only. *)
Definition extends (s s' : State) : Prop :=
  g_df s' = g_df s /\ exists extra, heap s' = heap s ++ extra.

(** The rows left by the year and vendor filters are none and a CWE
    selection is active: line 88 then indexes with an empty Series of
    dtype object, and the frame loses its columns. *)
Definition columns_lost (years : option (list Z)) (vendors fragments : option (list string))
    (f : DataFrame) : bool :=
  truthy fragments &&
  match List.filter (fun r => Spec.year_ok years r && Spec.vendor_ok vendors r) (rows f) with
  | [] => true
  | _ => false
  end.

Definition mode_reads_column (mode : string) : bool :=
  String.eqb mode "Known" || String.eqb mode "Unknown".

(** The series of the rows [kept]: lines 98-99. *)
Definition monthly (kept : list Row) : list (Timestamp * nat) :=
  map (fun kn => (to_timestamp (fst kn), snd kn))
      (groupby_size (dt_to_period (map dateAdded kept))).

(** The figure drawn for the rows [kept]: lines 95-108. *)
Definition figure_of (kept : list Row) : Figure :=
  match kept with
  | [] => px_line_title "No data matches the selected filters."
  | _ => mkFigure "Monthly Count of Exploited CVEs" (monthly kept)
  end.

(** The rows of the frame that lines 81-93 leave. *)
Definition kept_rows (selected_years : option (list Z))
    (selected_vendors selected_cwes : option (list string))
    (ransomware_filter : string) : M (list Row) :=
  filtered_df ← filter_frame selected_years selected_vendors selected_cwes ransomware_filter;
  f ← frame_at filtered_df;
  mret (rows f).

(** What start-up makes of one row of the file, given the cell that
    [pd.to_datetime] returned for it: nothing when the cell is [NaT]. *)
Definition cleaned (raw : RawRow) (d : option Timestamp) : option Row :=
  match d with
  | Some t => Some (mkRow (Some t) (vendorProject raw) (cwes raw)
                      (normalize (knownRansomwareCampaignUse raw)))
  | None => None
  end.

Definition cleaned_rows (raws : list RawRow) (parsed : list (option Timestamp)) : list Row :=
  omap (fun rd => cleaned (fst rd) (snd rd)) (combine raws parsed).

Definition is_NaT (d : option Timestamp) : bool :=
  match d with
  | Some _ => false
  | None => true
  end.

(** A sequence of callback invocations, each with its four inputs. *)
Definition Selection : Type :=
  option (list Z) * option (list string) * option (list string) * string.

Definition call (sel : Selection) : M Figure :=
  let '(ys, vs, cs, mode) := sel in update_graph ys vs cs mode.

Fixpoint run_calls (sels : list Selection) (s : State) : State :=
  match sels with
  | [] => s
  | sel :: rest => run_calls rest (snd (call sel s))
  end.

(** The count a grouped frame holds for a key, and the number of rows
    that carry a key. *)
Definition entry_count (acc : list (Period * nat)) (p : Period) : nat :=
  list_sum (map snd (List.filter (fun e => period_eqb (fst e) p) acc)).

Definition key_count (keys : list (option Period)) (p : Period) : nat :=
  List.length
    (List.filter (fun k => match k with Some q => period_eqb q p | None => false end) keys).

Definition entry_lt (a b : Period * nat) : Prop := period_lt (fst a) (fst b).

(** ** The option lists: lines 15-18 *)

Module PySeq.

(** [sorted(xs)] compares with [<] only and is stable: an element goes
    before the first element it is smaller than.  Where [<] is a total
    order this is what any comparison sort returns. *)
Fixpoint insort {A} (ltb : A -> A -> bool) (x : A) (l : list A) : list A :=
  match l with
  | [] => [x]
  | y :: l' => if ltb x y then x :: l else y :: insort ltb x l'
  end.

Definition sorted {A} (ltb : A -> A -> bool) (xs : list A) : list A :=
  fold_left (fun acc x => insort ltb x acc) xs [].

(** [Series.unique()] and [set(...)]: every value once.  [unique] keeps
    the order of first appearance; the order a [set] iterates in is not
    fixed, and the code only ever sorts it. *)
Definition unique {A} (eqb : A -> A -> bool) (xs : list A) : list A :=
  fold_left (fun seen x => if existsb (eqb x) seen then seen else seen ++ [x]) xs [].

(** [Series.dropna()]. *)
Definition dropna {A} (col : list (option A)) : list A := omap id col.

(** [s.split(sep)] for a separator of one character. *)
Fixpoint split (sep : ascii) (s : string) : list string :=
  match s with
  | EmptyString => [EmptyString]
  | String c s' =>
      if Ascii.eqb c sep then EmptyString :: split sep s'
      else match split sep s' with
           | t :: ts => String c t :: ts
           | [] => [String c EmptyString]
           end
  end.

(** [sep.join(parts)]. *)
Definition join (sep : string) (parts : list string) : string := String.concat sep parts.

(** [<] and [==] on the values of a float column: [NaN] is smaller than
    nothing and nothing is smaller than it; [unique] counts it once. *)
Definition float_ltb (a b : option Z) : bool :=
  match a, b with
  | Some x, Some y => (x <? y)%Z
  | _, _ => false
  end.

Definition float_same (a b : option Z) : bool :=
  match a, b with
  | Some x, Some y => (x =? y)%Z
  | None, None => true
  | _, _ => false
  end.

End PySeq.

(** Line 15.  [.dt.year] is an integer column when no date is [NaT], as
    after line 9, and a float column with [NaN] otherwise; with a [NaN]
    among the values the order [sorted] leaves depends on its algorithm,
    and the properties below are stated for frames without [NaT]. *)
Definition years_of (df : DataFrame) : result (list (option Z)) :=
  col ← getitem_col df "dateAdded" dateAdded;
  mret (PySeq.sorted PySeq.float_ltb (PySeq.unique PySeq.float_same (dt_year col))).

(** Line 16. *)
Definition vendors_of (df : DataFrame) : result (list string) :=
  col ← getitem_col df "vendorProject" vendorProject;
  mret (PySeq.sorted String.ltb (PySeq.unique String.eqb (PySeq.dropna col))).

(** Line 17; [str(row)] of a text cell is the text. *)
Definition cwes_of (df : DataFrame) : result (list string) :=
  col ← getitem_col df "cwes" cwes;
  mret (PySeq.sorted String.ltb
          (PySeq.unique String.eqb
             (concat (map (fun row => PySeq.split ","%char (str (Some row)))
                          (PySeq.dropna col))))).

(** Line 18. *)
Definition ransomware_options : list string := ["All"; "Known"; "Unknown"].

(** The values the CWE dropdown offers (line 47): each token, stripped.
    The year and the vendor dropdown offer the lists of lines 15 and 16
    as they are (lines 33 and 40). *)
Definition cwe_dropdown_values (cwes : list string) : list string :=
  map PyStr.strip cwes.

(** A strict total order, as [<] is on integers and on texts. *)
Record strict_total {A} (ltb : A -> A -> bool) : Prop := {
  lt_irrefl : forall x, ltb x x = false;
  lt_trans : forall x y z, ltb x y = true -> ltb y z = true -> ltb x z = true;
  lt_total : forall x y, ltb x y = false -> ltb y x = false -> x = y
}.

(** [s.count(c)] for one character. *)
Fixpoint count_char (c : ascii) (s : string) : nat :=
  match s with
  | EmptyString => 0
  | String d s' => (if Ascii.eqb d c then 1 else 0) + count_char c s'
  end.

(** [a < b] as a proposition. *)
Definition lt_of {A} (ltb : A -> A -> bool) (a b : A) : Prop := ltb a b = true.

(** Every character of [s] is white space. *)
Fixpoint blank (s : string) : bool :=
  match s with
  | EmptyString => true
  | String c s' => PyStr.is_space c && blank s'
  end.

(** ** Running the code on examples *)

Module Examples.

Definition digit (c : ascii) : option Z :=
  let n := nat_of_ascii c in
  if ((48 <=? n) && (n <=? 57))%nat then Some (Z.of_nat (n - 48)) else None.

Fixpoint number (acc : Z) (cs : list ascii) : option Z :=
  match cs with
  | [] => Some acc
  | c :: cs' => match digit c with
                | Some d => number (10 * acc + d)%Z cs'
                | None => None
                end
  end.

(** A date parser for the examples: it reads [YYYY-MM-DD] and rejects
    everything else.  It stands for pandas' parser on the texts of the
    examples. *)
Definition parse_iso (s : string) : option Timestamp :=
  match list_ascii_of_string s with
  | [y1; y2; y3; y4; "-"%char; m1; m2; "-"%char; d1; d2] =>
      match number 0 [y1; y2; y3; y4], number 0 [m1; m2], number 0 [d1; d2] with
      | Some y, Some m, Some d =>
          if ((1 <=? m) && (m <=? 12) && (1 <=? d) && (d <=? 31))%Z
          then Some {| year := y; month := m; day := d |}
          else None
      | _, _, _ => None
      end
  | _ => None
  end.

(** [pd.to_datetime] for the examples: every cell is read by
    [parse_iso]. *)
Definition to_datetime_iso (col : list (option string)) : list (option Timestamp) :=
  map (fun c => match c with Some text => parse_iso text | None => None end) col.

Definition kev_columns : list string :=
  ["dateAdded"; "vendorProject"; "cwes"; "knownRansomwareCampaignUse"].

Definition raw (d v c r : option string) : RawRow := mkRow d v c r.

(** The scenario of the specification; the empty ransomware cell is
    read by [read_csv] as a missing value. *)
Definition scenario : RawFrame :=
  mkFrame kev_columns
    [ raw (Some "2023-01-15") (Some "Acme") (Some "CWE-79") (Some "known");
      raw (Some "2023-01-20") (Some "Acme") (Some "CWE-89") None;
      raw (Some "2023-02-01") (Some "Globex") (Some "CWE-79") (Some "known") ].

(** A feed with an unreadable date, a missing vendor and a missing
    weakness list. *)
Definition feed : RawFrame :=
  mkFrame kev_columns
    [ raw (Some "2021-11-03") (Some "Acme") (Some "CWE-79,CWE-89") (Some " Known ");
      raw (Some "not a date") (Some "Acme") (Some "CWE-20") (Some "Unknown");
      raw (Some "2022-03-25") (Some "Globex") None (Some "Unknown");
      raw (Some "2022-03-28") None (Some "CWE-787") (Some "Known");
      raw None (Some "Globex") (Some "CWE-20") None;
      raw (Some "2021-11-17") (Some "Acme") (Some "CWE-89") None ].

Definition booted (csv : RawFrame) : State :=
  match boot to_datetime_iso csv with
  | inr s => s
  | inl _ => mkState 0 []
  end.

Definition loaded (csv : RawFrame) : DataFrame :=
  match load to_datetime_iso csv with
  | inr df => df
  | inl _ => mkFrame [] []
  end.

(** The two records of the feed with a missing cell, as loaded. *)
Definition no_cwes : Row :=
  mkRow (Some {| year := 2022; month := 3; day := 25 |}) (Some "Globex") None "unknown".

Definition no_vendor : Row :=
  mkRow (Some {| year := 2022; month := 3; day := 28 |}) None (Some "CWE-787") "known".

(** The loaded feed with its rows in the opposite order, as the global
    [df] of another interpreter. *)
Definition feed_reversed : DataFrame :=
  mkFrame (columns (loaded feed)) (rev (rows (loaded feed))).

Definition booted_reversed : State := mkState 0 [ODataFrame feed_reversed].

(** A frame that line 9 has not cleaned: its second row has no date. *)
Definition undated : DataFrame :=
  mkFrame kev_columns
    [ mkRow (Some {| year := 2024; month := 5; day := 2 |}) (Some "Acme") (Some "CWE-79")
        "known";
      mkRow None (Some "Acme") (Some "CWE-79") "known";
      mkRow (Some {| year := 2024; month := 5; day := 9 |}) (Some "Globex") None "nan" ].

Definition booted_undated : State := mkState 0 [ODataFrame undated].

(** The first day of a month. *)
Definition first_of (y m : Z) : Timestamp := {| year := y; month := m; day := 1 |}.

End Examples.

(** * Properties *)

(** ** Substrings *)

Section Substrings.

Lemma prefix_app (a s : string) :
  String.prefix a s = true <-> exists post, s = String.append a post.
Proof.
  revert s. induction a as [|c a IH]; intros s; simpl.
  - split; [intros _; exists s; reflexivity | intros _; destruct s; reflexivity].
  - destruct s as [|d s]; simpl.
    + split; [discriminate | intros [post H]; discriminate].
    + destruct (Ascii.ascii_dec c d) as [->|Hne].
      * rewrite IH. split; intros [post H]; exists post; congruence.
      * split; [discriminate | intros [post H]; congruence].
Qed.

(** [contains] is Python's [in]: a prefix of some suffix. *)
Lemma contains_spec (sub s : string) :
  PyStr.contains sub s = true <->
  exists pre post, s = String.append pre (String.append sub post).
Proof.
  induction s as [|c s IH]; cbn [PyStr.contains].
  - rewrite orb_false_r, prefix_app. split.
    + intros [post H]. exists EmptyString, post. exact H.
    + intros [pre [post H]]. destruct pre; simpl in H; [eauto | discriminate].
  - rewrite orb_true_iff, prefix_app, IH. split.
    + intros [[post H] | [pre [post H]]].
      * exists EmptyString, post. exact H.
      * exists (String c pre), post. simpl. congruence.
    + intros [pre [post H]]. destruct pre as [|d pre]; simpl in H.
      * left. eauto.
      * right. exists pre, post. congruence.
Qed.

Lemma contains_empty (s : string) : PyStr.contains EmptyString s = true.
Proof. destruct s; reflexivity. Qed.

Lemma cwe_lambda_spec (selected : list string) (x : option string) :
  cwe_lambda selected x = true <->
  exists frag, In frag selected /\ PyStr.contains frag (str x) = true.
Proof. unfold cwe_lambda. apply existsb_exists. Qed.

End Substrings.

(** ** Masks *)

Section Masks.
Context {A : Type}.

Lemma bool_select_map (f : A -> bool) (l : list A) :
  bool_select l (map f l) = List.filter f l.
Proof.
  induction l as [|x l IH]; simpl; [reflexivity|].
  rewrite IH. reflexivity.
Qed.

Lemma filter_filter_andb (f g : A -> bool) (l : list A) :
  List.filter g (List.filter f l) = List.filter (fun x => f x && g x) l.
Proof.
  induction l as [|x l IH]; simpl; [reflexivity|].
  destruct (f x); simpl; [destruct (g x)|]; rewrite IH; reflexivity.
Qed.

End Masks.

(** ** The order of periods *)

Section PeriodOrder.

Lemma period_eqb_eq (p q : Period) : period_eqb p q = true <-> p = q.
Proof.
  unfold period_eqb. destruct p as [y m], q as [y' m']; simpl.
  rewrite andb_true_iff, !Z.eqb_eq. split; [intros [-> ->]; reflexivity|].
  intros H; injection H; auto.
Qed.

Lemma period_eqb_refl (p : Period) : period_eqb p p = true.
Proof. apply period_eqb_eq. reflexivity. Qed.

Lemma period_ltb_irrefl (p : Period) : period_ltb p p = false.
Proof. unfold period_ltb. rewrite !Z.ltb_irrefl, andb_false_r. reflexivity. Qed.

Lemma period_lt_trans (p q r : Period) :
  period_lt p q -> period_lt q r -> period_lt p r.
Proof.
  unfold period_lt, period_ltb.
  rewrite !orb_true_iff, !andb_true_iff, !Z.ltb_lt, !Z.eqb_eq. lia.
Qed.

Lemma period_trichotomy (p q : Period) :
  period_ltb p q = false -> period_eqb p q = false -> period_ltb q p = true.
Proof.
  unfold period_ltb, period_eqb.
  rewrite !orb_false_iff, !andb_false_iff, orb_true_iff, andb_true_iff.
  rewrite !Z.ltb_ge, !Z.ltb_lt, !Z.eqb_neq, Z.eqb_eq. lia.
Qed.

Lemma period_lt_neq (p q : Period) : period_lt p q -> p <> q.
Proof.
  intros H ->. unfold period_lt in H. rewrite period_ltb_irrefl in H. discriminate.
Qed.

Lemma to_period_to_timestamp (p : Period) : to_period_M (to_timestamp p) = p.
Proof. destruct p; reflexivity. Qed.

End PeriodOrder.

(** ** Grouping *)

Section GroupBy.

Lemma entry_count_bump (k p : Period) (acc : list (Period * nat)) :
  entry_count (bump k acc) p
  = entry_count acc p + (if period_eqb k p then 1 else 0).
Proof.
  unfold entry_count.
  induction acc as [|[k' n] rest IH]; simpl.
  - destruct (period_eqb k p); reflexivity.
  - destruct (period_ltb k k') eqn:Hlt; simpl.
    + destruct (period_eqb k p), (period_eqb k' p); simpl; lia.
    + destruct (period_eqb k k') eqn:Heq; simpl.
      * apply period_eqb_eq in Heq. subst k'.
        destruct (period_eqb k p); simpl; lia.
      * destruct (period_eqb k' p); simpl; rewrite IH; lia.
Qed.

Lemma entry_count_groupby (keys : list (option Period)) (p : Period) :
  entry_count (groupby_size keys) p = key_count keys p.
Proof.
  unfold key_count.
  induction keys as [|[k|] keys IH]; simpl; [reflexivity| |exact IH].
  rewrite entry_count_bump, IH.
  destruct (period_eqb k p); simpl; lia.
Qed.

Lemma sum_bump (k : Period) (acc : list (Period * nat)) :
  list_sum (map snd (bump k acc)) = S (list_sum (map snd acc)).
Proof.
  induction acc as [|[k' n] rest IH]; simpl; [reflexivity|].
  destruct (period_ltb k k'); simpl; [reflexivity|].
  destruct (period_eqb k k'); simpl; [reflexivity|].
  rewrite IH. lia.
Qed.

(** The counts add up to the number of rows that carry a key. *)
Lemma groupby_sum (keys : list (option Period)) :
  list_sum (map snd (groupby_size keys))
  = List.length (List.filter (fun k => match k with Some _ => true | None => false end) keys).
Proof.
  induction keys as [|[k|] keys IH]; simpl; [reflexivity| |exact IH].
  rewrite sum_bump, IH. reflexivity.
Qed.

Lemma bump_positive (k : Period) (acc : list (Period * nat)) :
  Forall (fun e => 1 <= snd e) acc -> Forall (fun e => 1 <= snd e) (bump k acc).
Proof.
  induction 1 as [|[k' n] rest Hn Hrest IH]; simpl.
  - constructor; [simpl; lia | constructor].
  - destruct (period_ltb k k'); [constructor; [simpl; lia | constructor; assumption]|].
    destruct (period_eqb k k'); constructor; simpl in *; try lia; assumption.
Qed.

Lemma groupby_positive (keys : list (option Period)) :
  Forall (fun e => 1 <= snd e) (groupby_size keys).
Proof.
  induction keys as [|[k|] keys IH]; simpl; [constructor| |exact IH].
  apply bump_positive, IH.
Qed.

Lemma bump_HdRel (a : Period * nat) (k : Period) (acc : list (Period * nat)) :
  HdRel entry_lt a acc -> period_lt (fst a) k -> HdRel entry_lt a (bump k acc).
Proof.
  intros Hhd Hak. destruct acc as [|[k' n] rest]; simpl.
  - constructor. exact Hak.
  - inversion Hhd as [|? ? Hab]; subst.
    destruct (period_ltb k k'); [constructor; exact Hak|].
    destruct (period_eqb k k'); constructor; exact Hab.
Qed.

Lemma bump_sorted (k : Period) (acc : list (Period * nat)) :
  Sorted entry_lt acc -> Sorted entry_lt (bump k acc).
Proof.
  induction 1 as [|[k' n] rest Hs IH Hhd]; simpl.
  - repeat constructor.
  - destruct (period_ltb k k') eqn:Hlt.
    + constructor; [constructor; assumption|]. constructor. exact Hlt.
    + destruct (period_eqb k k') eqn:Heq.
      * constructor; [assumption|].
        inversion Hhd; subst; constructor; assumption.
      * constructor; [exact IH|].
        apply bump_HdRel; [exact Hhd|].
        apply period_trichotomy; assumption.
Qed.

(** The keys come out in strictly ascending order. *)
Lemma groupby_sorted (keys : list (option Period)) :
  StronglySorted entry_lt (groupby_size keys).
Proof.
  apply Sorted_StronglySorted.
  - intros a b c. apply period_lt_trans.
  - induction keys as [|[k|] keys IH]; simpl; [constructor| |exact IH].
    apply bump_sorted, IH.
Qed.

Lemma entry_count_absent (p : Period) (acc : list (Period * nat)) :
  Forall (fun e => fst e <> p) acc -> entry_count acc p = 0.
Proof.
  unfold entry_count. induction 1 as [|e rest Hne _ IH]; simpl; [reflexivity|].
  destruct (period_eqb (fst e) p) eqn:Heq; [|exact IH].
  apply period_eqb_eq in Heq. contradiction.
Qed.

Lemma entry_count_In (p : Period) (n : nat) (acc : list (Period * nat)) :
  StronglySorted entry_lt acc -> In (p, n) acc -> entry_count acc p = n.
Proof.
  induction 1 as [|e rest Hs IH Hall]; intros Hin; [destruct Hin|].
  destruct Hin as [-> | Hin].
  - unfold entry_count. simpl. rewrite period_eqb_refl. simpl.
    fold (entry_count rest p). rewrite entry_count_absent; [lia|].
    eapply Forall_impl; [exact Hall|].
    intros b Hb Heq. apply (period_lt_neq p (fst b)); [exact Hb | symmetry; exact Heq].
  - unfold entry_count. simpl.
    destruct (period_eqb (fst e) p) eqn:Heq.
    + apply period_eqb_eq in Heq.
      rewrite List.Forall_forall in Hall. specialize (Hall _ Hin).
      unfold entry_lt in Hall. simpl in Hall. rewrite Heq in Hall.
      unfold period_lt in Hall. rewrite period_ltb_irrefl in Hall. discriminate.
    + apply IH, Hin.
Qed.

Lemma entry_count_pos (p : Period) (acc : list (Period * nat)) :
  1 <= entry_count acc p -> exists n, In (p, n) acc.
Proof.
  unfold entry_count. induction acc as [|[k n] rest IH]; simpl; [lia|].
  destruct (period_eqb k p) eqn:Heq.
  - intros _. apply period_eqb_eq in Heq. subst. exists n. left. reflexivity.
  - intros H. destruct (IH H) as [m Hm]. exists m. right. exact Hm.
Qed.

(** An entry of the grouped frame is a key carried by at least one
    row, with the number of rows that carry it. *)
Lemma groupby_In (keys : list (option Period)) (p : Period) (n : nat) :
  In (p, n) (groupby_size keys) <-> n = key_count keys p /\ 1 <= n.
Proof.
  split.
  - intros Hin. split.
    + rewrite <- entry_count_groupby. symmetry.
      apply entry_count_In; [apply groupby_sorted | exact Hin].
    + pose proof (groupby_positive keys) as Hpos.
      rewrite List.Forall_forall in Hpos. apply (Hpos _ Hin).
  - intros [-> Hpos]. rewrite <- entry_count_groupby in Hpos |- *.
    destruct (entry_count_pos _ _ Hpos) as [m Hm].
    rewrite (entry_count_In _ _ _ (groupby_sorted keys) Hm). exact Hm.
Qed.

End GroupBy.

(** ** Running computations *)

Section Evaluation.

Lemma bind_ok {A B} (m : M A) (k : A -> M B) (s s' : State) (a : A) :
  m s = (inr a, s') -> (m ≫= k) s = k a s'.
Proof. intros H. unfold mbind, M_bind. rewrite H. reflexivity. Qed.

Lemma bind_raise {A B} (m : M A) (k : A -> M B) (s s' : State) (e : exn) :
  m s = (inl e, s') -> (m ≫= k) s = (inl e, s').
Proof. intros H. unfold mbind, M_bind. rewrite H. reflexivity. Qed.

Lemma extends_refl (s : State) : extends s s.
Proof. split; [reflexivity|]. exists []. symmetry. apply app_nil_r. Qed.

Lemma extends_trans (s1 s2 s3 : State) :
  extends s1 s2 -> extends s2 s3 -> extends s1 s3.
Proof.
  intros [Hg1 [e1 H1]] [Hg2 [e2 H2]]. split; [congruence|].
  exists (e1 ++ e2). rewrite H2, H1, app_assoc. reflexivity.
Qed.

Lemma extends_lookup (s s' : State) (l : loc) (o : pyobj) :
  extends s s' -> heap s !! l = Some o -> heap s' !! l = Some o.
Proof.
  intros [_ [extra ->]] H. apply lookup_app_l_Some. exact H.
Qed.

Lemma extends_new (s : State) (o : pyobj) :
  extends s (mkState (g_df s) (heap s ++ [o])).
Proof. split; [reflexivity|]. exists [o]. reflexivity. Qed.

Lemma lookup_new (h : list pyobj) (o : pyobj) : (h ++ [o]) !! List.length h = Some o.
Proof. apply list_lookup_middle. reflexivity. Qed.

Lemma frame_at_ok (l : loc) (s : State) (f : DataFrame) :
  heap s !! l = Some (ODataFrame f) -> frame_at l s = (inr f, s).
Proof. intros H. unfold frame_at. rewrite H. reflexivity. Qed.

Lemma counts_at_ok (l : loc) (s : State) (c : list (month_cell * nat)) :
  heap s !! l = Some (OCounts c) -> counts_at l s = (inr c, s).
Proof. intros H. unfold counts_at. rewrite H. reflexivity. Qed.

Lemma setitem_counts_ok (l : loc) (s : State) (c : list (month_cell * nat))
    (col : list month_cell) :
  heap s !! l = Some (OCounts c) ->
  setitem_counts l col s
  = (inr tt,
     mkState (g_df s) (<[l := OCounts (zip_with (fun x r => (x, snd r)) col c)]> (heap s))).
Proof. intros H. unfold setitem_counts. rewrite H. reflexivity. Qed.

Lemma getitem_ok (l : loc) key (s : State) (f : DataFrame) (k : BoolSeries) :
  heap s !! l = Some (ODataFrame f) -> key f = inr k ->
  getitem l key s
  = (inr (List.length (heap s)),
     mkState (g_df s) (heap s ++ [ODataFrame (getitem_series f k)])).
Proof.
  intros Hl Hk. unfold getitem.
  rewrite (bind_ok _ _ _ _ _ (frame_at_ok _ _ _ Hl)).
  unfold lift, mbind, M_bind. rewrite Hk. reflexivity.
Qed.

Lemma getitem_raise (l : loc) key (s : State) (f : DataFrame) (e : exn) :
  heap s !! l = Some (ODataFrame f) -> key f = inl e ->
  getitem l key s = (inl e, s).
Proof.
  intros Hl Hk. unfold getitem.
  rewrite (bind_ok _ _ _ _ _ (frame_at_ok _ _ _ Hl)).
  unfold lift, mbind, M_bind. rewrite Hk. reflexivity.
Qed.

Lemma getitem_col_ok {R A} (f : DataFrame_ R) (label : string) (cell : R -> A) :
  has_column f label = true -> getitem_col f label cell = inr (map cell (rows f)).
Proof. intros H. unfold getitem_col. rewrite H. reflexivity. Qed.

Lemma frame_eta {R} (f : DataFrame_ R) : mkFrame (columns f) (rows f) = f.
Proof. destruct f; reflexivity. Qed.

Lemma filter_all {A} (ok : A -> bool) (l : list A) :
  (forall x, ok x = true) -> List.filter ok l = l.
Proof.
  intros H. induction l as [|x l IH]; simpl; [reflexivity|].
  rewrite H, IH. reflexivity.
Qed.

(** One guarded filter: [if c: frame = frame[mask]]. *)
Lemma guarded_filter (c : bool) key (pred ok : Row -> bool)
    (l : loc) (s : State) (f : DataFrame) :
  heap s !! l = Some (ODataFrame f) ->
  (c = true -> key f = inr (mkSeries dt_bool (map pred (rows f)))) ->
  (forall r, ok r = negb c || pred r) ->
  exists l' s',
    (if c then getitem l key else mret l) s = (inr l', s') /\
    extends s s' /\
    heap s' !! l' = Some (ODataFrame (mkFrame (columns f) (List.filter ok (rows f)))).
Proof.
  intros Hl Hkey Hok. destruct c.
  - eexists _, _. split; [apply (getitem_ok _ _ _ _ _ Hl (Hkey eq_refl))|].
    split; [apply extends_new|]. simpl. rewrite lookup_new.
    unfold getitem_series. simpl. rewrite bool_select_map.
    do 3 f_equal. apply filter_ext. intros r. rewrite Hok. reflexivity.
  - exists l, s. split; [reflexivity|]. split; [apply extends_refl|].
    rewrite filter_all; [rewrite frame_eta; exact Hl|].
    intros r. rewrite Hok. reflexivity.
Qed.

Lemma has_kev_columns_inv {R} (f : DataFrame_ R) :
  has_kev_columns f = true ->
  has_column f "dateAdded" = true /\ has_column f "vendorProject" = true /\
  has_column f "cwes" = true /\ has_column f "knownRansomwareCampaignUse" = true.
Proof.
  unfold has_kev_columns. rewrite !andb_true_iff. tauto.
Qed.

End Evaluation.

(** ** The callback, evaluated *)

Section Callback.

Variables (ys : option (list Z)) (vs cs : option (list string)) (mode : string).

Lemma year_key_ok (f : DataFrame) :
  has_column f "dateAdded" = true ->
  year_key (items ys) f
  = inr (mkSeries dt_bool
           (map (fun r => match dateAdded r with
                          | Some t => existsb (Z.eqb (year t)) (items ys)
                          | None => false
                          end) (rows f))).
Proof.
  intros H. unfold year_key. rewrite (getitem_col_ok _ _ _ H).
  unfold mbind, result_bind, rbind, mret, result_ret, isin, dt_year.
  rewrite !map_map. do 2 f_equal. apply map_ext. intros r.
  destruct (dateAdded r); reflexivity.
Qed.

Lemma vendor_key_ok (f : DataFrame) :
  has_column f "vendorProject" = true ->
  vendor_key (items vs) f
  = inr (mkSeries dt_bool
           (map (fun r => match vendorProject r with
                          | Some v => existsb (String.eqb v) (items vs)
                          | None => false
                          end) (rows f))).
Proof.
  intros H. unfold vendor_key. rewrite (getitem_col_ok _ _ _ H).
  unfold mbind, result_bind, rbind, mret, result_ret, isin.
  rewrite map_map. reflexivity.
Qed.

Lemma cwe_key_ok (f : DataFrame) :
  has_column f "cwes" = true -> rows f <> [] ->
  cwe_key (items cs) f
  = inr (mkSeries dt_bool (map (fun r => cwe_lambda (items cs) (cwes r)) (rows f))).
Proof.
  intros H Hne. unfold cwe_key. rewrite (getitem_col_ok _ _ _ H).
  unfold mbind, result_bind, rbind, mret, result_ret, series_apply.
  destruct (rows f) as [|r rest]; [contradiction|].
  simpl. rewrite map_map. reflexivity.
Qed.

Lemma cwe_key_empty (f : DataFrame) :
  has_column f "cwes" = true -> rows f = [] ->
  cwe_key (items cs) f = inr (mkSeries dt_object []).
Proof.
  intros H He. unfold cwe_key. rewrite (getitem_col_ok _ _ _ H), He. reflexivity.
Qed.

(** Lines 81-88: the frame the year, vendor and CWE filters leave. *)
Lemma three_filters (s : State) (f : DataFrame) :
  df_is s f -> has_kev_columns f = true ->
  exists l s',
    filter_frame ys vs cs mode s
    = (if String.eqb mode "Known" then getitem l known_key
       else if String.eqb mode "Unknown" then getitem l unknown_key
       else mret l) s' /\
    extends s s' /\
    heap s' !! l
    = Some (ODataFrame
              (mkFrame (if columns_lost ys vs cs f then [] else columns f)
                 (List.filter
                    (fun r => Spec.year_ok ys r && Spec.vendor_ok vs r && Spec.cwe_ok cs r)
                    (rows f)))).
Proof.
  intros Hdf Hcols.
  destruct (has_kev_columns_inv _ Hcols) as (Hd & Hv & Hc & Hr).
  unfold filter_frame.
  rewrite (bind_ok global_df _ s s (g_df s) eq_refl).
  assert (Hcopy : DataFrame_copy (g_df s) s
                  = (inr (List.length (heap s)),
                     mkState (g_df s) (heap s ++ [ODataFrame f]))).
  { unfold DataFrame_copy. rewrite (bind_ok _ _ _ _ _ (frame_at_ok _ _ _ Hdf)).
    reflexivity. }
  rewrite (bind_ok _ _ _ _ _ Hcopy).
  pose proof (extends_new s (ODataFrame f)) as X0.
  pose proof (lookup_new (heap s) (ODataFrame f)) as L0.
  set (s1 := mkState (g_df s) (heap s ++ [ODataFrame f])) in *.
  change (heap s ++ [ODataFrame f]) with (heap s1) in L0.
  destruct (guarded_filter (truthy ys) (year_key (items ys)) _ (Spec.year_ok ys)
              _ s1 f L0 (fun _ => year_key_ok f Hd) (fun r => eq_refl))
    as (l1 & s2 & E1 & X1 & L1).
  rewrite (bind_ok _ _ _ _ _ E1).
  set (f1 := mkFrame (columns f) (List.filter (Spec.year_ok ys) (rows f))) in *.
  destruct (guarded_filter (truthy vs) (vendor_key (items vs)) _ (Spec.vendor_ok vs)
              _ s2 f1 L1 (fun _ => vendor_key_ok f1 Hv) (fun r => eq_refl))
    as (l2 & s3 & E2 & X2 & L2).
  rewrite (bind_ok _ _ _ _ _ E2).
  simpl in L2. rewrite filter_filter_andb in L2.
  set (pre := List.filter (fun r => Spec.year_ok ys r && Spec.vendor_ok vs r) (rows f)) in *.
  set (f2 := mkFrame (columns f) pre) in *.
  assert (X03 : extends s s3) by (eapply extends_trans; [|exact X2]; eapply extends_trans; eassumption).
  unfold columns_lost. fold pre.
  destruct (truthy cs) eqn:Tc; [destruct pre as [|r0 pre'] eqn:Hpre|].
  - (* a CWE selection on a frame without rows *)
    pose proof (getitem_ok l2 (cwe_key (items cs)) s3 f2 _ L2 (cwe_key_empty f2 Hc eq_refl)) as E3.
    rewrite (bind_ok _ _ _ _ _ E3).
    eexists _, _. split; [reflexivity|]. split.
    + eapply extends_trans; [exact X03 | apply extends_new].
    + simpl. rewrite lookup_new. unfold getitem_series. simpl.
      rewrite <- filter_filter_andb. fold pre. rewrite Hpre. reflexivity.
  - destruct (guarded_filter true (cwe_key (items cs))
                (fun r => cwe_lambda (items cs) (cwes r)) (Spec.cwe_ok cs)
                _ s3 f2 L2) as (l3 & s4 & E3 & X3 & L3).
    + intros _. apply cwe_key_ok; [exact Hc | discriminate].
    + intros r. unfold Spec.cwe_ok. rewrite Tc. reflexivity.
    + rewrite (bind_ok _ _ _ _ _ E3).
      exists l3, s4. split; [reflexivity|]. split; [eapply extends_trans; eassumption|].
      rewrite L3. unfold f2. cbn [columns rows]. rewrite <- Hpre. unfold pre.
      rewrite filter_filter_andb. reflexivity.
  - destruct (guarded_filter false (cwe_key (items cs))
                (fun r => cwe_lambda (items cs) (cwes r)) (Spec.cwe_ok cs)
                _ s3 f2 L2) as (l3 & s4 & E3 & X3 & L3).
    + discriminate.
    + intros r. unfold Spec.cwe_ok. rewrite Tc. reflexivity.
    + rewrite (bind_ok _ _ _ _ _ E3).
      exists l3, s4. split; [reflexivity|]. split; [eapply extends_trans; eassumption|].
      rewrite L3. unfold f2. cbn [columns rows]. unfold pre.
      rewrite filter_filter_andb. reflexivity.
Qed.

Lemma known_key_ok (f : DataFrame) :
  has_column f "knownRansomwareCampaignUse" = true ->
  known_key f
  = inr (mkSeries dt_bool
           (map (fun r => String.eqb (knownRansomwareCampaignUse r) "known") (rows f))).
Proof.
  intros H. unfold known_key. rewrite (getitem_col_ok _ _ _ H).
  unfold mbind, result_bind, rbind, mret, result_ret, series_eq.
  rewrite map_map. reflexivity.
Qed.

Lemma unknown_key_ok (f : DataFrame) :
  has_column f "knownRansomwareCampaignUse" = true ->
  unknown_key f
  = inr (mkSeries dt_bool
           (map (fun r => negb (String.eqb (knownRansomwareCampaignUse r) "known")) (rows f))).
Proof.
  intros H. unfold unknown_key. rewrite (getitem_col_ok _ _ _ H).
  unfold mbind, result_bind, rbind, mret, result_ret, series_ne.
  rewrite map_map. reflexivity.
Qed.

Lemma satisfies_filter (l : list Row) :
  List.filter (Spec.ransomware_ok mode)
    (List.filter (fun r => Spec.year_ok ys r && Spec.vendor_ok vs r && Spec.cwe_ok cs r) l)
  = List.filter (Spec.satisfies ys vs cs mode) l.
Proof. rewrite filter_filter_andb. reflexivity. Qed.

Lemma satisfies_pre (r : Row) :
  Spec.satisfies ys vs cs mode r = true ->
  Spec.year_ok ys r && Spec.vendor_ok vs r = true.
Proof.
  unfold Spec.satisfies. rewrite !andb_true_iff. tauto.
Qed.

(** When the columns are lost, no row was left to begin with. *)
Lemma columns_lost_kept (f : DataFrame) :
  columns_lost ys vs cs f = true ->
  List.filter (Spec.satisfies ys vs cs mode) (rows f) = [].
Proof.
  unfold columns_lost. rewrite andb_true_iff. intros [_ H].
  destruct (List.filter (fun r => Spec.year_ok ys r && Spec.vendor_ok vs r) (rows f))
    as [|r0 pre] eqn:Hpre; [|discriminate].
  destruct (List.filter (Spec.satisfies ys vs cs mode) (rows f)) as [|r kept] eqn:Hk;
    [reflexivity|].
  assert (Hin : In r (List.filter (Spec.satisfies ys vs cs mode) (rows f)))
    by (rewrite Hk; left; reflexivity).
  apply filter_In in Hin. destruct Hin as [Hin Hsat].
  assert (Hin' : In r (List.filter (fun r => Spec.year_ok ys r && Spec.vendor_ok vs r) (rows f)))
    by (apply filter_In; split; [exact Hin | apply satisfies_pre, Hsat]).
  rewrite Hpre in Hin'. destruct Hin'.
Qed.

(** Lines 81-93. *)
Lemma filter_frame_eval (s : State) (f : DataFrame) :
  df_is s f -> has_kev_columns f = true ->
  exists s', extends s s' /\
    if columns_lost ys vs cs f && mode_reads_column mode
    then filter_frame ys vs cs mode s
         = (inl (KeyError "knownRansomwareCampaignUse"), s')
    else exists l,
        filter_frame ys vs cs mode s = (inr l, s') /\
        heap s' !! l
        = Some (ODataFrame
                  (mkFrame (if columns_lost ys vs cs f then [] else columns f)
                     (List.filter (Spec.satisfies ys vs cs mode) (rows f)))).
Proof.
  intros Hdf Hcols.
  destruct (three_filters s f Hdf Hcols) as (l & s3 & E & X & L).
  destruct (has_kev_columns_inv _ Hcols) as (_ & _ & _ & Hr).
  rewrite E. clear E. rewrite <- satisfies_filter.
  set (f3 := mkFrame (if columns_lost ys vs cs f then [] else columns f)
               (List.filter (fun r => Spec.year_ok ys r && Spec.vendor_ok vs r
                                      && Spec.cwe_ok cs r) (rows f))) in *.
  unfold mode_reads_column, Spec.ransomware_ok.
  destruct (columns_lost ys vs cs f) eqn:Hlost; cbn [andb].
  - (* the frame has no column left *)
    destruct (String.eqb mode "Known"); cbn [orb].
    + exists s3. split; [exact X|]. apply (getitem_raise _ _ _ _ _ L). reflexivity.
    + destruct (String.eqb mode "Unknown").
      * exists s3. split; [exact X|]. apply (getitem_raise _ _ _ _ _ L). reflexivity.
      * exists s3. split; [exact X|]. exists l. split; [reflexivity|].
        rewrite filter_all by reflexivity. exact L.
  - assert (Hr3 : has_column f3 "knownRansomwareCampaignUse" = true) by exact Hr.
    destruct (String.eqb mode "Known"); cbn [orb].
    + eexists. split; [|eexists; split;
        [apply (getitem_ok _ _ _ _ _ L (known_key_ok f3 Hr3))|]].
      * eapply extends_trans; [exact X | apply extends_new].
      * cbn [heap]. rewrite lookup_new. unfold getitem_series.
        cbn [is_bool_indexer series_dtype series_values].
        rewrite bool_select_map. reflexivity.
    + destruct (String.eqb mode "Unknown").
      * eexists. split; [|eexists; split;
          [apply (getitem_ok _ _ _ _ _ L (unknown_key_ok f3 Hr3))|]].
        -- eapply extends_trans; [exact X | apply extends_new].
        -- cbn [heap]. rewrite lookup_new. unfold getitem_series.
           cbn [is_bool_indexer series_dtype series_values].
           rewrite bool_select_map. reflexivity.
      * exists s3. split; [exact X|]. exists l. split; [reflexivity|].
        rewrite filter_all by reflexivity. exact L.
Qed.

Lemma mapM_result_ok {A B} (g : A -> result B) (h : A -> B) (l : list A) :
  (forall x, In x l -> g x = inr (h x)) -> mapM g l = inr (map h l).
Proof.
  induction l as [|x l IH]; intros H; [reflexivity|].
  change (mapM g (x :: l)) with (y ← g x; k ← mapM g l; mret (y :: k)).
  rewrite (H x) by (left; reflexivity).
  rewrite IH by (intros y Hy; apply H; right; exact Hy).
  reflexivity.
Qed.

Lemma zip_with_maps {A B C D} (z : B -> C -> D) (g1 : A -> B) (g2 : A -> C) (l : list A) :
  zip_with z (map g1 l) (map g2 l) = map (fun x => z (g1 x) (g2 x)) l.
Proof. induction l as [|x l IH]; simpl; [reflexivity|]. rewrite IH. reflexivity. Qed.

Lemma insert_new (h : list pyobj) (o o' : pyobj) :
  <[List.length h := o']> (h ++ [o]) = h ++ [o'].
Proof.
  rewrite insert_app_r_alt by reflexivity. rewrite Nat.sub_diag. reflexivity.
Qed.

(** Lines 98-99 leave a grouped frame whose months are timestamps. *)
Lemma monthly_counts_of_eval (l : loc) (s : State) (f : DataFrame) :
  heap s !! l = Some (ODataFrame f) -> has_column f "dateAdded" = true ->
  monthly_counts_of l s
  = (inr (List.length (heap s)),
     mkState (g_df s)
       (heap s ++ [OCounts (map (fun e => (TimestampCell (fst e), snd e))
                                (monthly (rows f)))])).
Proof.
  intros Hl Hd. unfold monthly_counts_of.
  rewrite (bind_ok _ _ _ _ _ (frame_at_ok _ _ _ Hl)).
  rewrite (getitem_col_ok _ _ _ Hd).
  rewrite (bind_ok (lift _) _ s s _ eq_refl).
  set (G := groupby_size (dt_to_period (map dateAdded (rows f)))).
  set (c0 := map (fun kn => (PeriodCell (fst kn), snd kn)) G).
  rewrite (bind_ok (new (OCounts c0)) _ s _ _ eq_refl).
  set (s1 := mkState (g_df s) (heap s ++ [OCounts c0])).
  assert (L1 : heap s1 !! List.length (heap s) = Some (OCounts c0)) by apply lookup_new.
  rewrite (bind_ok _ _ _ _ _ (counts_at_ok _ _ _ L1)).
  assert (Hts : dt_to_timestamp (map fst c0)
                = inr (map (fun kn => TimestampCell (to_timestamp (fst kn))) G)).
  { unfold dt_to_timestamp, c0. rewrite map_map.
    rewrite (mapM_result_ok _ (fun c => match c with
                                        | PeriodCell p => TimestampCell (to_timestamp p)
                                        | TimestampCell t => TimestampCell t
                                        end)).
    - rewrite map_map. reflexivity.
    - intros x Hx. apply in_map_iff in Hx. destruct Hx as [kn [<- _]]. reflexivity. }
  rewrite Hts. rewrite (bind_ok (lift _) _ s1 s1 _ eq_refl).
  rewrite (bind_ok _ _ _ _ _ (setitem_counts_ok _ _ _ _ L1)).
  unfold mret, M_ret. cbn [g_df heap s1]. do 3 f_equal.
  rewrite insert_new. do 2 f_equal.
  unfold c0, monthly. rewrite zip_with_maps, map_map. reflexivity.
Qed.

Lemma px_line_timestamps (pts : list (Timestamp * nat)) (t : string) :
  px_line (map (fun e => (TimestampCell (fst e), snd e)) pts) t = inr (mkFigure t pts).
Proof.
  unfold px_line.
  rewrite (mapM_result_ok _ (fun r => match fst r with
                                      | TimestampCell x => (x, snd r)
                                      | PeriodCell p => (to_timestamp p, snd r)
                                      end)).
  - unfold mbind, result_bind, rbind, mret, result_ret. rewrite map_map.
    do 2 f_equal. rewrite <- (map_id pts) at 2. apply map_ext.
    intros [x n]. reflexivity.
  - intros x Hx. apply in_map_iff in Hx. destruct Hx as [e [<- _]]. reflexivity.
Qed.

Lemma has_column_nonempty {R} (f : DataFrame_ R) (label : string) :
  has_column f label = true -> columns f <> [].
Proof. unfold has_column. destruct (columns f); [discriminate|discriminate]. Qed.

(** The callback: it raises when line 88 has lost the columns and the
    mode reads one, and draws the rows that satisfy the selection
    otherwise. *)
Lemma update_graph_eval (s : State) (f : DataFrame) :
  df_is s f -> has_kev_columns f = true ->
  exists s', extends s s' /\
    update_graph ys vs cs mode s
    = (if columns_lost ys vs cs f && mode_reads_column mode
       then inl (KeyError "knownRansomwareCampaignUse")
       else inr (figure_of (List.filter (Spec.satisfies ys vs cs mode) (rows f))),
       s').
Proof.
  intros Hdf Hcols.
  destruct (filter_frame_eval s f Hdf Hcols) as (s1 & X & H).
  destruct (has_kev_columns_inv _ Hcols) as (Hd & _).
  unfold update_graph.
  destruct (columns_lost ys vs cs f && mode_reads_column mode).
  - exists s1. split; [exact X|]. apply (bind_raise _ _ _ _ _ H).
  - destruct H as (l & E & L).
    rewrite (bind_ok _ _ _ _ _ E), (bind_ok _ _ _ _ _ (frame_at_ok _ _ _ L)).
    destruct (columns_lost ys vs cs f) eqn:Hlost.
    + rewrite (columns_lost_kept f Hlost). exists s1. split; [exact X|]. reflexivity.
    + destruct (List.filter (Spec.satisfies ys vs cs mode) (rows f)) as [|r kept] eqn:Hk.
      * exists s1. split; [exact X|].
        unfold empty. cbn [columns rows]. destruct (columns f); reflexivity.
      * assert (Hne : empty (mkFrame (columns f) (r :: kept)) = false).
        { unfold empty. cbn [columns rows].
          pose proof (has_column_nonempty f _ Hd). destruct (columns f); congruence. }
        rewrite Hne.
        rewrite (bind_ok _ _ _ _ _ (monthly_counts_of_eval _ _ _ L Hd)).
        eexists. split.
        2:{ erewrite bind_ok; [|apply counts_at_ok; apply lookup_new].
            unfold lift. cbn [rows]. rewrite px_line_timestamps. reflexivity. }
        eapply extends_trans; [exact X | apply extends_new].
Qed.

End Callback.

(** ** Start-up, evaluated *)

Section StartupFacts.

Variable pd_to_datetime : list (option string) -> list (option Timestamp).

Lemma omap_cons {A B} (g : A -> option B) (x : A) (l : list A) :
  omap g (x :: l) = match g x with Some y => y :: omap g l | None => omap g l end.
Proof. reflexivity. Qed.

Lemma load_rows (raws : list RawRow) (parsed : list (option Timestamp)) :
  zip_with with_ransomware
    (List.filter (fun r => match dateAdded r with
                           | Some _ => true
                           | None => false
                           end)
       (zip_with with_dateAdded raws parsed))
    (map normalize
       (map knownRansomwareCampaignUse
          (List.filter (fun r => match dateAdded r with
                                 | Some _ => true
                                 | None => false
                                 end)
             (zip_with with_dateAdded raws parsed))))
  = cleaned_rows raws parsed.
Proof.
  unfold cleaned_rows. revert parsed.
  induction raws as [|raw raws IH]; intros [|d parsed]; try reflexivity.
  cbn [zip_with combine]. rewrite omap_cons, <- IH. cbn [fst snd List.filter].
  unfold cleaned at 1. cbn [with_dateAdded dateAdded].
  destruct d as [t|]; reflexivity.
Qed.

(** Lines 7-12 leave the rows for which [pd.to_datetime] returned a
    date, cleaned, in the order of the file. *)
Lemma load_eval (csv : RawFrame) :
  has_column csv "dateAdded" = true ->
  has_column csv "knownRansomwareCampaignUse" = true ->
  load pd_to_datetime csv
  = inr (mkFrame (columns csv)
           (cleaned_rows (rows csv) (pd_to_datetime (map dateAdded (rows csv))))).
Proof.
  intros Hd Hr. unfold load.
  rewrite (getitem_col_ok _ _ _ Hd).
  unfold mbind at 1, result_bind, rbind.
  unfold getitem_col, has_column, dropna_dateAdded. cbn [columns rows].
  fold (has_column csv "knownRansomwareCampaignUse"). rewrite Hr.
  unfold mbind, result_bind, rbind, mret, result_ret. do 2 f_equal.
  apply load_rows.
Qed.

Lemma cleaned_rows_In (raws : list RawRow) (parsed : list (option Timestamp)) (r : Row) :
  In r (cleaned_rows raws parsed) <->
  exists raw t,
    In (raw, Some t) (combine raws parsed) /\
    r = mkRow (Some t) (vendorProject raw) (cwes raw)
          (normalize (knownRansomwareCampaignUse raw)).
Proof.
  unfold cleaned_rows.
  induction (combine raws parsed) as [|[raw d] l IH]; [split; [intros [] | intros (? & ? & [] & _)]|].
  rewrite omap_cons. cbn [fst snd]. destruct d as [t|]; cbn [cleaned In]; rewrite IH; split.
  - intros [<- | (raw' & t' & Hin & ->)]; [exists raw, t; auto | exists raw', t'; auto].
  - intros (raw' & t' & [Heq | Hin] & ->);
      [injection Heq as <- <-; left; reflexivity | right; exists raw', t'; auto].
  - intros (raw' & t' & Hin & ->). exists raw', t'. auto.
  - intros (raw' & t' & [Heq | Hin] & ->); [discriminate | exists raw', t'; auto].
Qed.

(** A row of the file is kept or its date is [NaT]. *)
Lemma cleaned_rows_length (raws : list RawRow) (parsed : list (option Timestamp)) :
  List.length parsed = List.length raws ->
  List.length (cleaned_rows raws parsed) + List.length (List.filter is_NaT parsed)
  = List.length raws.
Proof.
  unfold cleaned_rows. revert parsed.
  induction raws as [|raw raws IH]; intros [|d parsed] Hlen; try discriminate;
    [reflexivity|].
  cbn [combine]. rewrite omap_cons. cbn [fst snd List.filter].
  injection Hlen as Hlen. specialize (IH _ Hlen).
  destruct d as [t|]; cbn [cleaned is_NaT List.length]; lia.
Qed.

End StartupFacts.

(** ** The series *)

Section Series.

Lemma figure_of_data (kept : list Row) : data (figure_of kept) = monthly kept.
Proof. destruct kept; reflexivity. Qed.

Lemma key_count_rows (kept : list Row) (p : Period) :
  key_count (dt_to_period (map dateAdded kept)) p
  = List.length (List.filter (Spec.in_month p) kept).
Proof.
  unfold key_count, dt_to_period, Spec.in_month.
  induction kept as [|r kept IH]; [reflexivity|].
  cbn [map List.filter]. destruct (dateAdded r) as [t|]; cbn [option_map].
  - destruct (period_eqb (to_period_M t) p); cbn [List.length]; rewrite IH; reflexivity.
  - exact IH.
Qed.

Lemma month_count_monthly (kept : list Row) (p : Period) :
  Spec.month_count (monthly kept) p = List.length (List.filter (Spec.in_month p) kept).
Proof.
  rewrite <- key_count_rows, <- entry_count_groupby.
  unfold Spec.month_count, entry_count, monthly.
  generalize (groupby_size (dt_to_period (map dateAdded kept))) as G.
  induction G as [|[q n] G IH]; [reflexivity|].
  cbn [map List.filter fst snd]. rewrite to_period_to_timestamp.
  destruct (period_eqb q p); [|exact IH].
  cbn [map snd]. unfold list_sum in *. cbn [fold_right]. rewrite IH. reflexivity.
Qed.

Lemma sum_counts_monthly (kept : list Row) :
  Forall (fun r => dateAdded r <> None) kept ->
  Spec.sum_counts (monthly kept) = List.length kept.
Proof.
  intros Hd. unfold Spec.sum_counts, monthly. rewrite map_map. cbn [snd].
  change (map (fun x : Period * nat => snd x)) with (map (@snd Period nat)).
  rewrite groupby_sum. unfold dt_to_period.
  induction Hd as [|r kept Hr _ IH]; [reflexivity|].
  cbn [map List.filter]. destruct (dateAdded r); [|contradiction].
  cbn [option_map List.length]. rewrite IH. reflexivity.
Qed.

Lemma monthly_In (kept : list Row) (t : Timestamp) (n : nat) :
  In (t, n) (monthly kept) <->
  t = to_timestamp (to_period_M t) /\
  n = List.length (List.filter (Spec.in_month (to_period_M t)) kept) /\ 1 <= n.
Proof.
  unfold monthly. rewrite in_map_iff. split.
  - intros [[p m] [Heq Hin]]. cbn [fst snd] in Heq. injection Heq as <- <-.
    rewrite to_period_to_timestamp. apply groupby_In in Hin.
    rewrite key_count_rows in Hin. tauto.
  - intros (Ht & Hn & Hpos). exists (to_period_M t, n). cbn [fst snd].
    split; [rewrite <- Ht; reflexivity|].
    apply groupby_In. rewrite key_count_rows. tauto.
Qed.

Lemma monthly_sorted (kept : list Row) : StronglySorted Spec.month_lt (monthly kept).
Proof.
  unfold monthly.
  pose proof (groupby_sorted (dt_to_period (map dateAdded kept))) as H.
  induction H as [|e G Hs IH Hall]; [constructor|].
  cbn [map]. constructor; [exact IH|].
  apply List.Forall_forall. intros x Hx. apply in_map_iff in Hx.
  destruct Hx as [e' [<- Hin]]. rewrite List.Forall_forall in Hall.
  unfold Spec.month_lt. cbn [fst]. rewrite !to_period_to_timestamp.
  apply (Hall _ Hin).
Qed.

Lemma monthly_positive (kept : list Row) :
  Forall (fun e => 1 <= snd e) (monthly kept).
Proof.
  apply List.Forall_forall. intros [t n] Hin. apply monthly_In in Hin. cbn [snd]. tauto.
Qed.

Lemma sorted_NoDup (series : list (Timestamp * nat)) :
  StronglySorted Spec.month_lt series -> NoDup (map fst series).
Proof.
  induction 1 as [|e rest Hs IH Hall]; cbn [map]; [constructor|].
  apply NoDup_cons_2; [|exact IH].
  intros Hin. apply list_elem_of_In, in_map_iff in Hin.
  destruct Hin as [e' [Heq Hin]].
  rewrite List.Forall_forall in Hall. specialize (Hall _ Hin).
  unfold Spec.month_lt in Hall. rewrite Heq in Hall.
  unfold period_lt in Hall. rewrite period_ltb_irrefl in Hall. discriminate.
Qed.

Lemma filter_in_month (ok : Row -> bool) (p : Period) (l : list Row) :
  List.filter (Spec.in_month p) (List.filter ok l)
  = List.filter (fun r => ok r && Spec.in_month p r) l.
Proof. apply filter_filter_andb. Qed.

Lemma filter_partition {A} (f g : A -> bool) (l : list A) :
  Permutation (List.filter (fun x => f x && g x) l
               ++ List.filter (fun x => f x && negb (g x)) l)
              (List.filter f l).
Proof.
  induction l as [|x l IH]; [constructor|].
  cbn [List.filter]. destruct (f x), (g x); cbn [andb negb].
  - cbn [app]. constructor. exact IH.
  - symmetry. apply Permutation_cons_app. symmetry. exact IH.
  - exact IH.
  - exact IH.
Qed.

End Series.

(** ** Outcomes of the callback *)

Section Outcomes.

Variables (ys : option (list Z)) (vs cs : option (list string)) (mode : string).
Variables (s : State) (f : DataFrame).
Hypothesis Hdf : df_is s f.
Hypothesis Hcols : has_kev_columns f = true.

Lemma update_graph_result :
  fst (update_graph ys vs cs mode s)
  = if columns_lost ys vs cs f && mode_reads_column mode
    then inl (KeyError "knownRansomwareCampaignUse")
    else inr (figure_of (List.filter (Spec.satisfies ys vs cs mode) (rows f))).
Proof.
  destruct (update_graph_eval ys vs cs mode s f Hdf Hcols) as (s' & _ & E).
  rewrite E. reflexivity.
Qed.

Lemma update_graph_state : extends s (snd (update_graph ys vs cs mode s)).
Proof.
  destruct (update_graph_eval ys vs cs mode s f Hdf Hcols) as (s' & X & E).
  rewrite E. exact X.
Qed.

Lemma kept_rows_result :
  fst (kept_rows ys vs cs mode s)
  = if columns_lost ys vs cs f && mode_reads_column mode
    then inl (KeyError "knownRansomwareCampaignUse")
    else inr (List.filter (Spec.satisfies ys vs cs mode) (rows f)).
Proof.
  destruct (filter_frame_eval ys vs cs mode s f Hdf Hcols) as (s' & _ & H).
  unfold kept_rows.
  destruct (columns_lost ys vs cs f && mode_reads_column mode).
  - rewrite (bind_raise _ _ _ _ _ H). reflexivity.
  - destruct H as (l & E & L).
    rewrite (bind_ok _ _ _ _ _ E), (bind_ok _ _ _ _ _ (frame_at_ok _ _ _ L)).
    reflexivity.
Qed.

End Outcomes.

Section Frame.

Lemma call_preserves (sel : Selection) (s : State) (f : DataFrame) :
  df_is s f -> has_kev_columns f = true ->
  extends s (snd (call sel s)) /\ df_is (snd (call sel s)) f.
Proof.
  intros Hdf Hcols. destruct sel as [[[ys vs] cs] mode]. cbn [call].
  pose proof (update_graph_state ys vs cs mode s f Hdf Hcols) as X.
  split; [exact X|]. unfold df_is. destruct X as [Hg Hex].
  rewrite Hg. apply (extends_lookup s); [split; assumption | exact Hdf].
Qed.

Lemma run_calls_preserves (sels : list Selection) (s : State) (f : DataFrame) :
  df_is s f -> has_kev_columns f = true ->
  extends s (run_calls sels s) /\ df_is (run_calls sels s) f.
Proof.
  revert s. induction sels as [|sel sels IH]; intros s Hdf Hcols; cbn [run_calls].
  - split; [apply extends_refl | exact Hdf].
  - destruct (call_preserves sel s f Hdf Hcols) as [X1 Hdf1].
    destruct (IH _ Hdf1 Hcols) as [X2 Hdf2].
    split; [eapply extends_trans; eassumption | exact Hdf2].
Qed.

Lemma call_result_frame (sel : Selection) (s1 s2 : State) (f : DataFrame) :
  df_is s1 f -> df_is s2 f -> has_kev_columns f = true ->
  fst (call sel s1) = fst (call sel s2).
Proof.
  intros H1 H2 Hcols. destruct sel as [[[ys vs] cs] mode]. cbn [call].
  rewrite (update_graph_result ys vs cs mode s1 f H1 Hcols).
  rewrite (update_graph_result ys vs cs mode s2 f H2 Hcols).
  reflexivity.
Qed.

Lemma Forall_filter {A} (P : A -> Prop) (ok : A -> bool) (l : list A) :
  Forall P l -> Forall P (List.filter ok l).
Proof.
  intros H. apply List.Forall_forall. intros x Hx. apply filter_In in Hx.
  rewrite List.Forall_forall in H. apply H, Hx.
Qed.

End Frame.

Section Predicates.

Lemma year_ok_spec (ys : option (list Z)) (r : Row) :
  Spec.year_ok ys r = true <->
  (truthy ys = true -> exists t, dateAdded r = Some t /\ In (year t) (items ys)).
Proof.
  unfold Spec.year_ok. destruct (truthy ys); cbn [negb orb];
    [|split; [intros _ H; discriminate H | reflexivity]].
  destruct (dateAdded r) as [t|].
  - rewrite existsb_exists. split.
    + intros [y [Hin Hy]] _. apply Z.eqb_eq in Hy. subst y. exists t. auto.
    + intros H. destruct (H eq_refl) as [t' [Ht Hin]]. injection Ht as <-.
      exists (year t). split; [exact Hin | apply Z.eqb_refl].
  - split; [discriminate|]. intros H. destruct (H eq_refl) as [t [Ht _]]. discriminate.
Qed.

Lemma vendor_ok_spec (vs : option (list string)) (r : Row) :
  Spec.vendor_ok vs r = true <->
  (truthy vs = true -> exists v, vendorProject r = Some v /\ In v (items vs)).
Proof.
  unfold Spec.vendor_ok. destruct (truthy vs); cbn [negb orb];
    [|split; [intros _ H; discriminate H | reflexivity]].
  destruct (vendorProject r) as [v|].
  - rewrite existsb_exists. split.
    + intros [y [Hin Hy]] _. apply String.eqb_eq in Hy. subst y. exists v. auto.
    + intros H. destruct (H eq_refl) as [v' [Hv Hin]]. injection Hv as <-.
      exists v. split; [exact Hin | apply String.eqb_refl].
  - split; [discriminate|]. intros H. destruct (H eq_refl) as [v [Hv _]]. discriminate.
Qed.

End Predicates.

Section Modes.

Variables (ys : option (list Z)) (vs cs : option (list string)).

Import Spec.

Lemma satisfies_known (r : Row) :
  Spec.satisfies ys vs cs "Known" r = Spec.satisfies ys vs cs "All" r && is_known r.
Proof. unfold Spec.satisfies. cbn [Spec.ransomware_ok String.eqb Ascii.eqb Bool.eqb].
       rewrite andb_true_r. reflexivity. Qed.

Lemma satisfies_unknown (r : Row) :
  Spec.satisfies ys vs cs "Unknown" r
  = Spec.satisfies ys vs cs "All" r && negb (is_known r).
Proof. unfold Spec.satisfies. cbn [Spec.ransomware_ok String.eqb Ascii.eqb Bool.eqb].
       rewrite andb_true_r. reflexivity. Qed.

Lemma kept_known (l : list Row) :
  List.filter (Spec.satisfies ys vs cs "Known") l
  = List.filter is_known (List.filter (Spec.satisfies ys vs cs "All") l).
Proof.
  rewrite filter_filter_andb. apply filter_ext. exact satisfies_known.
Qed.

Lemma kept_unknown (l : list Row) :
  List.filter (Spec.satisfies ys vs cs "Unknown") l
  = List.filter (fun r => negb (is_known r)) (List.filter (Spec.satisfies ys vs cs "All") l).
Proof.
  rewrite filter_filter_andb. apply filter_ext. exact satisfies_unknown.
Qed.

Lemma filter_known_unknown (l : list Row) :
  Permutation (List.filter is_known l ++ List.filter (fun r => negb (is_known r)) l) l.
Proof.
  rewrite <- (filter_all (fun _ => true) l) at 3 by reflexivity.
  apply (filter_partition (fun _ => true) is_known).
Qed.

Lemma count_known_unknown (extra : Row -> bool) (l : list Row) :
  List.length (List.filter extra (List.filter is_known l))
  + List.length (List.filter extra (List.filter (fun r => negb (is_known r)) l))
  = List.length (List.filter extra l).
Proof.
  induction l as [|r l IH]; [reflexivity|].
  cbn [List.filter]. destruct (is_known r); cbn [negb List.filter];
    destruct (extra r); cbn [List.length]; lia.
Qed.

Lemma sum_counts_dates (kept : list Row) :
  Spec.sum_counts (monthly kept)
  = List.length (List.filter (fun r => match dateAdded r with
                                       | Some _ => true
                                       | None => false
                                       end) kept).
Proof.
  unfold Spec.sum_counts, monthly. rewrite map_map. cbn [snd].
  change (map (fun x : Period * nat => snd x)) with (map (@snd Period nat)).
  rewrite groupby_sum. unfold dt_to_period.
  induction kept as [|r kept IH]; [reflexivity|].
  cbn [map List.filter]. destruct (dateAdded r); cbn [option_map List.length];
    rewrite IH; reflexivity.
Qed.

End Modes.

(** ** The scenario of the specification *)

Section Scenario.

Import Examples.

Example scenario_all :
  fst (update_graph None None None "All" (booted scenario))
  = inr (mkFigure "Monthly Count of Exploited CVEs"
           [(first_of 2023 1, 2); (first_of 2023 2, 1)]).
Proof. vm_compute. reflexivity. Qed.

Example scenario_known :
  fst (update_graph None None None "Known" (booted scenario))
  = inr (mkFigure "Monthly Count of Exploited CVEs"
           [(first_of 2023 1, 1); (first_of 2023 2, 1)]).
Proof. vm_compute. reflexivity. Qed.

Example scenario_acme :
  fst (update_graph None (Some ["Acme"]) None "All" (booted scenario))
  = inr (mkFigure "Monthly Count of Exploited CVEs" [(first_of 2023 1, 2)]).
Proof. vm_compute. reflexivity. Qed.

Example scenario_cwe_9 :
  fst (update_graph None None (Some ["CWE-9"]) "All" (booted scenario))
  = inr (mkFigure "No data matches the selected filters." []).
Proof. vm_compute. reflexivity. Qed.

Example scenario_2023_unknown :
  fst (update_graph (Some [2023%Z]) None None "Unknown" (booted scenario))
  = inr (mkFigure "Monthly Count of Exploited CVEs" [(first_of 2023 1, 1)]).
Proof. vm_compute. reflexivity. Qed.

(** The same selection under the three modes, on the feed: [All] draws
    the placeholder, [Known] and [Unknown] raise. *)
Example feed_all :
  fst (update_graph (Some [2022%Z]) (Some ["Acme"]) (Some ["CWE-79"]) "All" (booted feed))
  = inr (mkFigure "No data matches the selected filters." []).
Proof. vm_compute. reflexivity. Qed.

Example feed_unknown :
  fst (update_graph (Some [2022%Z]) (Some ["Acme"]) (Some ["CWE-79"]) "Unknown" (booted feed))
  = inl (KeyError "knownRansomwareCampaignUse").
Proof. vm_compute. reflexivity. Qed.

(** Without the CWE selection the same years and vendors draw the
    placeholder under every mode. *)
Example feed_known_without_cwes :
  fst (update_graph (Some [2022%Z]) (Some ["Acme"]) None "Known" (booted feed))
  = inr (mkFigure "No data matches the selected filters." []).
Proof. vm_compute. reflexivity. Qed.

End Scenario.

(** * The properties of the specification *)

(** C1.  Whenever the callback returns a figure, the counts of its series
    add up to the number of records of the dataset that satisfy the year,
    vendor and CWE predicates (each active when its selection is
    non-empty) and the ransomware mode.  The callback returns a figure
    unless line 88 has lost the columns and the mode reads one; it then
    raises [KeyError]. *)
Theorem C1_sum_of_counts (ys : option (list Z)) (vs cs : option (list string))
    (mode : string) (s : State) (f : DataFrame) :
  df_is s f -> has_kev_columns f = true -> dated f ->
  match fst (update_graph ys vs cs mode s) with
  | inr fig =>
      Spec.sum_counts (data fig)
      = List.length (List.filter (Spec.satisfies ys vs cs mode) (rows f))
  | inl e =>
      e = KeyError "knownRansomwareCampaignUse" /\
      columns_lost ys vs cs f = true /\ mode_reads_column mode = true
  end.
Proof.
  intros Hdf Hcols Hdated.
  rewrite (update_graph_result ys vs cs mode s f Hdf Hcols).
  destruct (columns_lost ys vs cs f && mode_reads_column mode) eqn:Hraise.
  - apply andb_true_iff in Hraise. tauto.
  - rewrite figure_of_data. apply sum_counts_monthly, Forall_filter, Hdated.
Qed.

(** C2.  With a non-empty CWE selection, the CWE filter keeps a record
    exactly when the lambda of line 88 holds of its [cwes] cell, and for
    a cell with text the lambda holds exactly when some requested
    fragment occurs in the text as a contiguous substring.  The text
    [CWE-79,CWE-89] matches the fragment [CWE-7]; the fragment [CWE-9]
    matches neither [CWE-79] nor [CWE-89]. *)
Theorem C2_cwe_substring_match (ys : option (list Z)) (vs cs : option (list string))
    (mode : string) (s : State) (f : DataFrame) :
  df_is s f -> has_kev_columns f = true -> truthy cs = true ->
  (forall (r : Row) (text : string),
      cwes r = Some text ->
      (cwe_lambda (items cs) (cwes r) = true <->
       exists frag pre post,
         In frag (items cs) /\ text = String.append pre (String.append frag post))) /\
  match fst (kept_rows ys vs cs mode s) with
  | inr kept =>
      kept = List.filter (fun r => cwe_lambda (items cs) (cwes r))
               (List.filter (Spec.satisfies ys vs None mode) (rows f))
  | inl e =>
      e = KeyError "knownRansomwareCampaignUse" /\
      columns_lost ys vs cs f = true /\ mode_reads_column mode = true
  end /\
  cwe_lambda ["CWE-7"] (Some "CWE-79,CWE-89") = true /\
  cwe_lambda ["CWE-9"] (Some "CWE-79") = false /\
  cwe_lambda ["CWE-9"] (Some "CWE-89") = false.
Proof.
  intros Hdf Hcols Tc. split; [|split; [|repeat split; reflexivity]].
  - intros r text Hr. rewrite cwe_lambda_spec, Hr. cbn [str]. split.
    + intros [frag [Hin Hc]]. apply contains_spec in Hc.
      destruct Hc as [pre [post Hc]]. exists frag, pre, post. auto.
    + intros [frag [pre [post [Hin Hc]]]]. exists frag. split; [exact Hin|].
      apply contains_spec. exists pre, post. exact Hc.
  - rewrite (kept_rows_result ys vs cs mode s f Hdf Hcols).
    destruct (columns_lost ys vs cs f && mode_reads_column mode) eqn:Hraise.
    + apply andb_true_iff in Hraise. tauto.
    + rewrite filter_filter_andb. apply filter_ext. intros r.
      unfold Spec.satisfies, Spec.cwe_ok, cwe_lambda. rewrite Tc. cbn [truthy negb orb].
      destruct (Spec.year_ok ys r), (Spec.vendor_ok vs r), (Spec.ransomware_ok mode r),
        (existsb (fun cwe => PyStr.contains cwe (str (cwes r))) (items cs)); reflexivity.
Qed.

(** C3.  For fixed year, vendor and CWE selections, whenever the modes
    [Known] and [Unknown] return: the rows kept under [Known] are the
    rows kept under [All] whose normalized field is ["known"], the rows
    kept under [Unknown] are those whose field is not, no row is in both,
    together they are the rows kept under [All], and the counts add up in
    total and in every month.  When line 88 has lost the columns the two
    modes raise and [All] keeps no row.  A missing ransomware cell is
    normalized to a text other than ["known"]. *)
Theorem C3_known_unknown_partition (ys : option (list Z)) (vs cs : option (list string))
    (s : State) (f : DataFrame) :
  df_is s f -> has_kev_columns f = true ->
  match fst (kept_rows ys vs cs "Known" s), fst (kept_rows ys vs cs "Unknown" s),
        fst (kept_rows ys vs cs "All" s) with
  | inr known, inr unknown, inr all =>
      known = List.filter Spec.is_known all /\
      unknown = List.filter (fun r => negb (Spec.is_known r)) all /\
      Permutation (known ++ unknown) all /\
      (forall r, In r known -> In r unknown -> False)
  | inl _, inl _, inr all => columns_lost ys vs cs f = true /\ all = []
  | _, _, _ => False
  end /\
  match fst (update_graph ys vs cs "Known" s), fst (update_graph ys vs cs "Unknown" s),
        fst (update_graph ys vs cs "All" s) with
  | inr known, inr unknown, inr all =>
      Spec.sum_counts (data known) + Spec.sum_counts (data unknown)
      = Spec.sum_counts (data all) /\
      forall p : Period,
        Spec.month_count (data known) p + Spec.month_count (data unknown) p
        = Spec.month_count (data all) p
  | inl _, inl _, inr all => columns_lost ys vs cs f = true /\ data all = []
  | _, _, _ => False
  end /\
  String.eqb (normalize None) "known" = false.
Proof.
  intros Hdf Hcols.
  rewrite !(kept_rows_result ys vs cs _ s f Hdf Hcols).
  rewrite !(update_graph_result ys vs cs _ s f Hdf Hcols).
  change (mode_reads_column "Known") with true.
  change (mode_reads_column "Unknown") with true.
  change (mode_reads_column "All") with false.
  rewrite andb_false_r, andb_true_r.
  destruct (columns_lost ys vs cs f) eqn:Hlost.
  - rewrite (columns_lost_kept ys vs cs "All" f Hlost). cbn [figure_of px_line_title data].
    repeat split; reflexivity.
  - rewrite !figure_of_data, kept_known, kept_unknown.
    set (all := List.filter (Spec.satisfies ys vs cs "All") (rows f)).
    split; [|split; [|reflexivity]].
    + split; [reflexivity|]. split; [reflexivity|].
      split; [apply filter_known_unknown|].
      intros r Hk Hu. apply filter_In in Hk. apply filter_In in Hu.
      destruct Hk as [_ Hk]. destruct Hu as [_ Hu]. rewrite Hk in Hu. discriminate.
    + split.
      * rewrite !sum_counts_dates. apply count_known_unknown.
      * intros p. rewrite !month_count_monthly. apply count_known_unknown.
Qed.

(** C4.  Whenever the callback returns a figure, its series is strictly
    ascending by month and has no month twice; an entry [(t, n)] is in
    the series exactly when [t] is the first day of a month, [n] is the
    number of matching records of that month, and [n] is at least 1. *)
Theorem C4_series_sorted_and_exact (ys : option (list Z)) (vs cs : option (list string))
    (mode : string) (s : State) (f : DataFrame) :
  df_is s f -> has_kev_columns f = true ->
  match fst (update_graph ys vs cs mode s) with
  | inr fig =>
      StronglySorted Spec.month_lt (data fig) /\
      NoDup (map fst (data fig)) /\
      Forall (fun e => 1 <= snd e) (data fig) /\
      forall (t : Timestamp) (n : nat),
        In (t, n) (data fig) <->
        t = to_timestamp (to_period_M t) /\
        n = List.length
              (List.filter (fun r => Spec.satisfies ys vs cs mode r
                                     && Spec.in_month (to_period_M t) r) (rows f)) /\
        1 <= n
  | inl e =>
      e = KeyError "knownRansomwareCampaignUse" /\
      columns_lost ys vs cs f = true /\ mode_reads_column mode = true
  end.
Proof.
  intros Hdf Hcols.
  rewrite (update_graph_result ys vs cs mode s f Hdf Hcols).
  destruct (columns_lost ys vs cs f && mode_reads_column mode) eqn:Hraise.
  - apply andb_true_iff in Hraise. tauto.
  - rewrite figure_of_data.
    split; [apply monthly_sorted|].
    split; [apply sorted_NoDup, monthly_sorted|].
    split; [apply monthly_positive|].
    intros t n. rewrite monthly_In, filter_in_month. reflexivity.
Qed.

(** C5.  The callback is not total.  On the feed of the examples, the
    years [2022] and the vendors [Acme] leave no row; the CWE filter of
    line 88 then indexes the frame with an empty Series of dtype object,
    which selects no column, and the mode [Known] raises [KeyError] when
    line 91 reads its column. *)
Theorem C5_callback_raises :
  fst (update_graph (Some [2022%Z]) (Some ["Acme"]) (Some ["CWE-79"]) "Known"
         (Examples.booted Examples.feed))
  = inl (KeyError "knownRansomwareCampaignUse").
Proof. vm_compute. reflexivity. Qed.

(** C6.  With no CWE selection and the mode [All], the rows kept are the
    rows of the dataset that pass the year and the vendor predicate, in
    the order of the dataset: a non-empty year selection keeps the rows
    whose [dateAdded] year is a member, a non-empty vendor selection
    keeps the rows whose [vendorProject] is a member (equal as text), and
    an empty selection restricts nothing.  Under any CWE selection and
    mode, the rows kept are those the CWE filter and the mode keep on
    their own, restricted by the same two predicates. *)
Theorem C6_year_and_vendor_filters (ys : option (list Z)) (vs : option (list string))
    (s : State) (f : DataFrame) :
  df_is s f -> has_kev_columns f = true ->
  (exists kept,
      fst (kept_rows ys vs None "All" s) = inr kept /\
      kept = List.filter (fun r => Spec.year_ok ys r && Spec.vendor_ok vs r) (rows f) /\
      forall r,
        In r kept <->
        In r (rows f) /\
        (truthy ys = true -> exists t, dateAdded r = Some t /\ In (year t) (items ys)) /\
        (truthy vs = true -> exists v, vendorProject r = Some v /\ In v (items vs))) /\
  forall (cs : option (list string)) (mode : string),
    match fst (kept_rows ys vs cs mode s) with
    | inr kept =>
        kept = List.filter (fun r => Spec.year_ok ys r && Spec.vendor_ok vs r)
                 (List.filter (Spec.satisfies None None cs mode) (rows f))
    | inl e =>
        e = KeyError "knownRansomwareCampaignUse" /\
        columns_lost ys vs cs f = true /\ mode_reads_column mode = true
    end.
Proof.
  intros Hdf Hcols. split.
  - exists (List.filter (fun r => Spec.year_ok ys r && Spec.vendor_ok vs r) (rows f)).
    split; [|split; [reflexivity|]].
    + rewrite (kept_rows_result ys vs None "All" s f Hdf Hcols).
      unfold columns_lost. cbn [truthy andb]. f_equal. apply filter_ext. intros r.
      unfold Spec.satisfies. cbn. rewrite !andb_true_r. reflexivity.
    + intros r. rewrite filter_In, andb_true_iff, year_ok_spec, vendor_ok_spec. tauto.
  - intros cs mode. rewrite (kept_rows_result ys vs cs mode s f Hdf Hcols).
    destruct (columns_lost ys vs cs f && mode_reads_column mode) eqn:Hraise.
    + apply andb_true_iff in Hraise. tauto.
    + rewrite filter_filter_andb. apply filter_ext. intros r.
      unfold Spec.satisfies.
      change (Spec.year_ok None r) with true. change (Spec.vendor_ok None r) with true.
      cbn [andb].
      destruct (Spec.year_ok ys r), (Spec.vendor_ok vs r), (Spec.cwe_ok cs r),
        (Spec.ransomware_ok mode r); reflexivity.
Qed.

(** C7.  Start-up succeeds on a file with the four columns and leaves in
    [df] the rows for which [pd.to_datetime] returned a date, in the
    order of the file; a row whose date it could not read ([NaT]) is left
    out without an error, and every row of the file is either kept or
    such a row.  Every row of [df] carries a parsed date.  The callback
    applies no date filter of its own: with no selection it counts every
    row of [df]. *)
Theorem C7_unparseable_dates_dropped
    (pd_to_datetime : list (option string) -> list (option Timestamp)) (csv : RawFrame) :
  (forall col, List.length (pd_to_datetime col) = List.length col) ->
  has_kev_columns csv = true ->
  exists df,
    load pd_to_datetime csv = inr df /\
    boot pd_to_datetime csv = inr (mkState 0 [ODataFrame df]) /\
    rows df = cleaned_rows (rows csv) (pd_to_datetime (map dateAdded (rows csv))) /\
    dated df /\
    List.length (rows df)
    + List.length (List.filter is_NaT (pd_to_datetime (map dateAdded (rows csv))))
    = List.length (rows csv) /\
    (forall r,
        In r (rows df) <->
        exists raw t,
          In (raw, Some t)
             (combine (rows csv) (pd_to_datetime (map dateAdded (rows csv)))) /\
          r = mkRow (Some t) (vendorProject raw) (cwes raw)
                (normalize (knownRansomwareCampaignUse raw))) /\
    exists fig,
      fst (update_graph None None None "All" (mkState 0 [ODataFrame df])) = inr fig /\
      Spec.sum_counts (data fig) = List.length (rows df).
Proof.
  intros Hlen Hcols. destruct (has_kev_columns_inv _ Hcols) as (Hd & _ & _ & Hr).
  pose proof (load_eval pd_to_datetime csv Hd Hr) as Hload.
  set (parsed := pd_to_datetime (map dateAdded (rows csv))) in *.
  set (df := mkFrame (columns csv) (cleaned_rows (rows csv) parsed)) in *.
  assert (Hdated : dated df).
  { unfold dated. apply List.Forall_forall. intros r Hin.
    apply cleaned_rows_In in Hin. destruct Hin as (raw & t & _ & ->). discriminate. }
  exists df. split; [exact Hload|]. split; [unfold boot; rewrite Hload; reflexivity|].
  split; [reflexivity|]. split; [exact Hdated|]. split; [|split].
  - apply cleaned_rows_length. unfold parsed. rewrite Hlen. apply length_map.
  - intros r. apply cleaned_rows_In.
  - exists (figure_of (rows df)). split.
    + assert (Hdf : df_is (mkState 0 [ODataFrame df]) df) by reflexivity.
      assert (Hcols' : has_kev_columns df = true) by exact Hcols.
      rewrite (update_graph_result None None None "All" _ df Hdf Hcols').
      cbn [columns_lost truthy andb]. rewrite filter_all by reflexivity. reflexivity.
    + rewrite figure_of_data. apply sum_counts_monthly. exact Hdated.
Qed.

(** C8.  A call of the callback, and any sequence of calls, leaves the
    global [df] bound to the same object with the same contents, and
    leaves every object that was on the heap as it was; a call after any
    sequence of calls returns what it returns before them. *)
Theorem C8_dataset_unchanged (sels : list Selection) (s : State) (f : DataFrame) :
  df_is s f -> has_kev_columns f = true ->
  g_df (run_calls sels s) = g_df s /\
  df_is (run_calls sels s) f /\
  (forall l o, heap s !! l = Some o -> heap (run_calls sels s) !! l = Some o) /\
  forall sel, fst (call sel (run_calls sels s)) = fst (call sel s).
Proof.
  intros Hdf Hcols.
  destruct (run_calls_preserves sels s f Hdf Hcols) as [X Hdf'].
  split; [apply X|]. split; [exact Hdf'|]. split.
  - intros l o. apply extends_lookup, X.
  - intros sel. apply (call_result_frame sel _ _ f Hdf' Hdf Hcols).
Qed.

(** C9.  A record whose [cwes] cell is missing is tested against the
    text [nan]: under a non-empty CWE selection (no other filter) it is
    kept exactly when some requested fragment is a substring of [nan].
    The fragments [a], [n] and [nan] match it; [CWE-79] does not. *)
Theorem C9_missing_cwes_read_as_nan (cs : option (list string)) (s : State)
    (f : DataFrame) (r : Row) :
  df_is s f -> has_kev_columns f = true -> truthy cs = true ->
  In r (rows f) -> cwes r = None ->
  str (cwes r) = "nan" /\
  (exists kept,
      fst (kept_rows None None cs "All" s) = inr kept /\
      (In r kept <->
       exists frag pre post,
         In frag (items cs) /\ "nan" = String.append pre (String.append frag post))) /\
  cwe_lambda ["a"] (cwes r) = true /\
  cwe_lambda ["n"] (cwes r) = true /\
  cwe_lambda ["nan"] (cwes r) = true /\
  cwe_lambda ["CWE-79"] (cwes r) = false.
Proof.
  intros Hdf Hcols Tc Hin Hr. rewrite Hr.
  split; [reflexivity|]. split; [|repeat split; reflexivity].
  exists (List.filter (Spec.satisfies None None cs "All") (rows f)). split.
  - rewrite (kept_rows_result None None cs "All" s f Hdf Hcols).
    change (mode_reads_column "All") with false. rewrite andb_false_r. reflexivity.
  - rewrite filter_In.
    unfold Spec.satisfies, Spec.cwe_ok, Spec.year_ok, Spec.vendor_ok, Spec.ransomware_ok.
    rewrite Tc, Hr. cbn [truthy negb orb andb str String.eqb Ascii.eqb Bool.eqb].
    rewrite andb_true_r, existsb_exists. split.
    + intros [_ [frag [Hf Hc]]]. apply contains_spec in Hc.
      destruct Hc as [pre [post Hc]]. exists frag, pre, post. auto.
    + intros [frag [pre [post [Hf Hc]]]]. split; [exact Hin|].
      exists frag. split; [exact Hf|]. apply contains_spec. exists pre, post. exact Hc.
Qed.

(** C10.  A record whose [vendorProject] cell is missing is kept under no
    non-empty vendor selection, whatever the other inputs; under an empty
    vendor selection the vendor filter does not touch it, and with no
    other filter it is kept. *)
Theorem C10_missing_vendor_excluded (ys : option (list Z)) (vs cs : option (list string))
    (mode : string) (s : State) (f : DataFrame) (r : Row) :
  df_is s f -> has_kev_columns f = true ->
  In r (rows f) -> vendorProject r = None ->
  (truthy vs = true ->
   match fst (kept_rows ys vs cs mode s) with
   | inr kept => ~ In r kept
   | inl e => e = KeyError "knownRansomwareCampaignUse"
   end) /\
  (truthy vs = false ->
   match fst (kept_rows ys vs cs mode s) with
   | inr kept =>
       In r kept <->
       Spec.year_ok ys r && Spec.cwe_ok cs r && Spec.ransomware_ok mode r = true
   | inl e => e = KeyError "knownRansomwareCampaignUse"
   end) /\
  (truthy vs = false ->
   exists kept, fst (kept_rows None vs None "All" s) = inr kept /\ In r kept).
Proof.
  intros Hdf Hcols Hin Hv. split; [|split]; intros Tv.
  - rewrite (kept_rows_result ys vs cs mode s f Hdf Hcols).
    destruct (columns_lost ys vs cs f && mode_reads_column mode); [reflexivity|].
    rewrite filter_In. unfold Spec.satisfies, Spec.vendor_ok. rewrite Tv, Hv.
    cbn [negb orb]. rewrite andb_false_r. cbn [andb]. intros [_ H]. discriminate.
  - rewrite (kept_rows_result ys vs cs mode s f Hdf Hcols).
    destruct (columns_lost ys vs cs f && mode_reads_column mode); [reflexivity|].
    rewrite filter_In. unfold Spec.satisfies, Spec.vendor_ok. rewrite Tv.
    cbn [negb orb]. rewrite andb_true_r. tauto.
  - exists (List.filter (Spec.satisfies None vs None "All") (rows f)). split.
    + rewrite (kept_rows_result None vs None "All" s f Hdf Hcols). reflexivity.
    + apply filter_In. split; [exact Hin|].
      unfold Spec.satisfies, Spec.vendor_ok. rewrite Tv. reflexivity.
Qed.

(** * The properties on the examples *)

Section Witnesses.

Import Examples.

Lemma C1_sum_of_counts_witness :
  df_is (booted scenario) (loaded scenario) /\
  has_kev_columns (loaded scenario) = true /\
  dated (loaded scenario) /\
  match fst (update_graph (Some [2023%Z]) None None "Unknown" (booted scenario)) with
  | inr fig =>
      Spec.sum_counts (data fig)
      = List.length (List.filter (Spec.satisfies (Some [2023%Z]) None None "Unknown")
                       (rows (loaded scenario)))
  | inl e =>
      e = KeyError "knownRansomwareCampaignUse" /\
      columns_lost (Some [2023%Z]) None None (loaded scenario) = true /\
      mode_reads_column "Unknown" = true
  end.
Proof.
  assert (H1 : df_is (booted scenario) (loaded scenario)) by (vm_compute; reflexivity).
  assert (H2 : has_kev_columns (loaded scenario) = true) by (vm_compute; reflexivity).
  assert (H3 : dated (loaded scenario)).
  { unfold dated. vm_compute. repeat constructor; discriminate. }
  split; [exact H1|]. split; [exact H2|]. split; [exact H3|].
  exact (C1_sum_of_counts (Some [2023%Z]) None None "Unknown" _ _ H1 H2 H3).
Defined.

Lemma C2_cwe_substring_match_witness :
  df_is (booted feed) (loaded feed) /\
  has_kev_columns (loaded feed) = true /\
  truthy (Some ["CWE-7"]) = true /\
  match fst (kept_rows None None (Some ["CWE-7"]) "All" (booted feed)) with
  | inr kept =>
      kept = List.filter (fun r => cwe_lambda ["CWE-7"] (cwes r))
               (List.filter (Spec.satisfies None None None "All") (rows (loaded feed)))
  | inl e =>
      e = KeyError "knownRansomwareCampaignUse" /\
      columns_lost None None (Some ["CWE-7"]) (loaded feed) = true /\
      mode_reads_column "All" = true
  end.
Proof.
  assert (H1 : df_is (booted feed) (loaded feed)) by (vm_compute; reflexivity).
  assert (H2 : has_kev_columns (loaded feed) = true) by (vm_compute; reflexivity).
  assert (H3 : truthy (Some ["CWE-7"]) = true) by reflexivity.
  split; [exact H1|]. split; [exact H2|]. split; [exact H3|].
  exact (proj1 (proj2 (C2_cwe_substring_match None None (Some ["CWE-7"]) "All" _ _ H1 H2 H3))).
Defined.

Lemma C3_known_unknown_partition_witness :
  df_is (booted scenario) (loaded scenario) /\
  has_kev_columns (loaded scenario) = true /\
  match fst (update_graph (Some [2023%Z]) None None "Known" (booted scenario)),
        fst (update_graph (Some [2023%Z]) None None "Unknown" (booted scenario)),
        fst (update_graph (Some [2023%Z]) None None "All" (booted scenario)) with
  | inr known, inr unknown, inr all =>
      Spec.sum_counts (data known) + Spec.sum_counts (data unknown)
      = Spec.sum_counts (data all) /\
      forall p : Period,
        Spec.month_count (data known) p + Spec.month_count (data unknown) p
        = Spec.month_count (data all) p
  | inl _, inl _, inr all =>
      columns_lost (Some [2023%Z]) None None (loaded scenario) = true /\ data all = []
  | _, _, _ => False
  end.
Proof.
  assert (H1 : df_is (booted scenario) (loaded scenario)) by (vm_compute; reflexivity).
  assert (H2 : has_kev_columns (loaded scenario) = true) by (vm_compute; reflexivity).
  split; [exact H1|]. split; [exact H2|].
  exact (proj1 (proj2 (C3_known_unknown_partition (Some [2023%Z]) None None _ _ H1 H2))).
Defined.

Lemma C4_series_sorted_and_exact_witness :
  df_is (booted scenario) (loaded scenario) /\
  has_kev_columns (loaded scenario) = true /\
  match fst (update_graph None None None "All" (booted scenario)) with
  | inr fig =>
      StronglySorted Spec.month_lt (data fig) /\
      NoDup (map fst (data fig)) /\
      Forall (fun e => 1 <= snd e) (data fig) /\
      forall (t : Timestamp) (n : nat),
        In (t, n) (data fig) <->
        t = to_timestamp (to_period_M t) /\
        n = List.length
              (List.filter (fun r => Spec.satisfies None None None "All" r
                                     && Spec.in_month (to_period_M t) r)
                 (rows (loaded scenario))) /\
        1 <= n
  | inl e =>
      e = KeyError "knownRansomwareCampaignUse" /\
      columns_lost None None None (loaded scenario) = true /\
      mode_reads_column "All" = true
  end.
Proof.
  assert (H1 : df_is (booted scenario) (loaded scenario)) by (vm_compute; reflexivity).
  assert (H2 : has_kev_columns (loaded scenario) = true) by (vm_compute; reflexivity).
  split; [exact H1|]. split; [exact H2|].
  exact (C4_series_sorted_and_exact None None None "All" _ _ H1 H2).
Defined.

Lemma C6_year_and_vendor_filters_witness :
  df_is (booted feed) (loaded feed) /\
  has_kev_columns (loaded feed) = true /\
  exists kept,
    fst (kept_rows (Some [2022%Z]) (Some ["Globex"]) None "All" (booted feed)) = inr kept /\
    kept = List.filter (fun r => Spec.year_ok (Some [2022%Z]) r
                                 && Spec.vendor_ok (Some ["Globex"]) r)
             (rows (loaded feed)) /\
    forall r,
      In r kept <->
      In r (rows (loaded feed)) /\
      (truthy (Some [2022%Z]) = true ->
       exists t, dateAdded r = Some t /\ In (year t) (items (Some [2022%Z]))) /\
      (truthy (Some ["Globex"]) = true ->
       exists v, vendorProject r = Some v /\ In v (items (Some ["Globex"]))).
Proof.
  assert (H1 : df_is (booted feed) (loaded feed)) by (vm_compute; reflexivity).
  assert (H2 : has_kev_columns (loaded feed) = true) by (vm_compute; reflexivity).
  split; [exact H1|]. split; [exact H2|].
  exact (proj1 (C6_year_and_vendor_filters (Some [2022%Z]) (Some ["Globex"]) _ _ H1 H2)).
Defined.

Lemma C7_unparseable_dates_dropped_witness :
  (forall col, List.length (to_datetime_iso col) = List.length col) /\
  has_kev_columns feed = true /\
  exists df,
    load to_datetime_iso feed = inr df /\
    boot to_datetime_iso feed = inr (mkState 0 [ODataFrame df]) /\
    rows df = cleaned_rows (rows feed) (to_datetime_iso (map dateAdded (rows feed))) /\
    dated df /\
    List.length (rows df)
    + List.length (List.filter is_NaT (to_datetime_iso (map dateAdded (rows feed))))
    = List.length (rows feed) /\
    (forall r,
        In r (rows df) <->
        exists raw t,
          In (raw, Some t)
             (combine (rows feed) (to_datetime_iso (map dateAdded (rows feed)))) /\
          r = mkRow (Some t) (vendorProject raw) (cwes raw)
                (normalize (knownRansomwareCampaignUse raw))) /\
    exists fig,
      fst (update_graph None None None "All" (mkState 0 [ODataFrame df])) = inr fig /\
      Spec.sum_counts (data fig) = List.length (rows df).
Proof.
  assert (H0 : forall col, List.length (to_datetime_iso col) = List.length col)
    by (intros col; apply length_map).
  assert (H1 : has_kev_columns feed = true) by (vm_compute; reflexivity).
  split; [exact H0|]. split; [exact H1|].
  exact (C7_unparseable_dates_dropped to_datetime_iso feed H0 H1).
Defined.

Lemma C8_dataset_unchanged_witness :
  df_is (booted feed) (loaded feed) /\
  has_kev_columns (loaded feed) = true /\
  g_df (run_calls [(Some [2022%Z], Some ["Acme"], Some ["CWE-79"], "Known");
                   (None, None, None, "All")] (booted feed))
  = g_df (booted feed) /\
  df_is (run_calls [(Some [2022%Z], Some ["Acme"], Some ["CWE-79"], "Known");
                    (None, None, None, "All")] (booted feed)) (loaded feed) /\
  (forall l o,
      heap (booted feed) !! l = Some o ->
      heap (run_calls [(Some [2022%Z], Some ["Acme"], Some ["CWE-79"], "Known");
                       (None, None, None, "All")] (booted feed)) !! l = Some o) /\
  forall sel,
    fst (call sel (run_calls [(Some [2022%Z], Some ["Acme"], Some ["CWE-79"], "Known");
                              (None, None, None, "All")] (booted feed)))
    = fst (call sel (booted feed)).
Proof.
  assert (H1 : df_is (booted feed) (loaded feed)) by (vm_compute; reflexivity).
  assert (H2 : has_kev_columns (loaded feed) = true) by (vm_compute; reflexivity).
  split; [exact H1|]. split; [exact H2|].
  exact (C8_dataset_unchanged _ _ _ H1 H2).
Defined.

Lemma C9_missing_cwes_read_as_nan_witness :
  df_is (booted feed) (loaded feed) /\
  has_kev_columns (loaded feed) = true /\
  truthy (Some ["a"]) = true /\
  In no_cwes (rows (loaded feed)) /\
  cwes no_cwes = None /\
  exists kept,
    fst (kept_rows None None (Some ["a"]) "All" (booted feed)) = inr kept /\
    (In no_cwes kept <->
     exists frag pre post,
       In frag (items (Some ["a"])) /\
       "nan" = String.append pre (String.append frag post)).
Proof.
  assert (H1 : df_is (booted feed) (loaded feed)) by (vm_compute; reflexivity).
  assert (H2 : has_kev_columns (loaded feed) = true) by (vm_compute; reflexivity).
  assert (H3 : truthy (Some ["a"]) = true) by reflexivity.
  assert (H4 : In no_cwes (rows (loaded feed))) by (vm_compute; auto).
  assert (H5 : cwes no_cwes = None) by reflexivity.
  split; [exact H1|]. split; [exact H2|]. split; [exact H3|].
  split; [exact H4|]. split; [exact H5|].
  exact (proj1 (proj2 (C9_missing_cwes_read_as_nan (Some ["a"]) _ _ _ H1 H2 H3 H4 H5))).
Defined.

Lemma C10_missing_vendor_excluded_witness :
  df_is (booted feed) (loaded feed) /\
  has_kev_columns (loaded feed) = true /\
  In no_vendor (rows (loaded feed)) /\
  vendorProject no_vendor = None /\
  (truthy (Some ["Globex"]) = true ->
   match fst (kept_rows None (Some ["Globex"]) None "All" (booted feed)) with
   | inr kept => ~ In no_vendor kept
   | inl e => e = KeyError "knownRansomwareCampaignUse"
   end).
Proof.
  assert (H1 : df_is (booted feed) (loaded feed)) by (vm_compute; reflexivity).
  assert (H2 : has_kev_columns (loaded feed) = true) by (vm_compute; reflexivity).
  assert (H3 : In no_vendor (rows (loaded feed))) by (vm_compute; auto).
  assert (H4 : vendorProject no_vendor = None) by reflexivity.
  split; [exact H1|]. split; [exact H2|]. split; [exact H3|]. split; [exact H4|].
  exact (proj1 (C10_missing_vendor_excluded None (Some ["Globex"]) None "All" _ _ _
                  H1 H2 H3 H4)).
Defined.

End Witnesses.

(** * The option lists and further properties of the callback *)

(** ** Orders *)

Section Orders.

Lemma Z_ltb_strict_total : strict_total Z.ltb.
Proof.
  split.
  - apply Z.ltb_irrefl.
  - intros x y z. rewrite !Z.ltb_lt. lia.
  - intros x y. rewrite !Z.ltb_ge. lia.
Qed.

Lemma ascii_compare_Lt (a b : ascii) :
  Ascii.compare a b = Lt <-> (N_of_ascii a < N_of_ascii b)%N.
Proof. unfold Ascii.compare. apply N.compare_lt_iff. Qed.

Lemma ascii_compare_Eq (a b : ascii) : Ascii.compare a b = Eq <-> a = b.
Proof.
  split; [apply Ascii.compare_eq_iff|]. intros ->. unfold Ascii.compare.
  apply N.compare_refl.
Qed.

Lemma string_compare_refl (s : string) : String.compare s s = Eq.
Proof.
  induction s as [|c s IH]; [reflexivity|]. cbn [String.compare].
  rewrite (proj2 (ascii_compare_Eq c c) eq_refl). exact IH.
Qed.

Lemma string_compare_trans (s1 s2 s3 : string) :
  String.compare s1 s2 = Lt -> String.compare s2 s3 = Lt -> String.compare s1 s3 = Lt.
Proof.
  revert s2 s3. induction s1 as [|a s1 IH]; intros [|b s2] [|c s3];
    cbn [String.compare]; try discriminate; try reflexivity.
  destruct (Ascii.compare a b) eqn:Hab; try discriminate.
  - apply ascii_compare_Eq in Hab. subst b.
    destruct (Ascii.compare a c); try discriminate; [apply IH | reflexivity].
  - intros _. destruct (Ascii.compare b c) eqn:Hbc; try discriminate.
    + apply ascii_compare_Eq in Hbc. subst c. rewrite Hab. reflexivity.
    + intros _. apply ascii_compare_Lt in Hab. apply ascii_compare_Lt in Hbc.
      rewrite (proj2 (ascii_compare_Lt a c)) by (eapply N.lt_trans; eassumption).
      reflexivity.
Qed.

Lemma string_ltb_strict_total : strict_total String.ltb.
Proof.
  split.
  - intros x. unfold String.ltb. rewrite string_compare_refl. reflexivity.
  - intros x y z. unfold String.ltb.
    destruct (String.compare x y) eqn:Hxy; try discriminate.
    destruct (String.compare y z) eqn:Hyz; try discriminate.
    rewrite (string_compare_trans _ _ _ Hxy Hyz). reflexivity.
  - intros x y. unfold String.ltb. rewrite (String.compare_antisym y x).
    destruct (String.compare x y) eqn:Hxy; cbn [CompOpp]; try discriminate.
    intros _ _. apply String.compare_eq_iff, Hxy.
Qed.

End Orders.

(** ** Ascending lists *)

Section Ascending.

Context {A : Type} (R : A -> A -> Prop).
Hypothesis R_irrefl : forall x, ~ R x x.
Hypothesis R_trans : forall x y z, R x y -> R y z -> R x z.

Lemma ascending_head (x y : A) (l1 l2 : list A) :
  StronglySorted R (x :: l1) -> StronglySorted R (y :: l2) ->
  (forall z, In z (x :: l1) <-> In z (y :: l2)) -> x = y.
Proof.
  intros H1 H2 Hmem. inversion H1 as [|? ? _ Hx]; inversion H2 as [|? ? _ Hy]; subst.
  rewrite List.Forall_forall in Hx, Hy.
  destruct (proj1 (Hmem x) (or_introl eq_refl)) as [Heq | Hin]; [symmetry; exact Heq|].
  destruct (proj2 (Hmem y) (or_introl eq_refl)) as [Heq | Hin']; [exact Heq|].
  destruct (R_irrefl x). apply (R_trans x y x); [apply Hx, Hin' | apply Hy, Hin].
Qed.

(** Two lists in strictly ascending order with the same members are the
    same list. *)
Lemma ascending_unique (l1 l2 : list A) :
  StronglySorted R l1 -> StronglySorted R l2 ->
  (forall z, In z l1 <-> In z l2) -> l1 = l2.
Proof.
  revert l2. induction l1 as [|x l1 IH]; intros [|y l2] H1 H2 Hmem.
  - reflexivity.
  - destruct (proj2 (Hmem y) (or_introl eq_refl)).
  - destruct (proj1 (Hmem x) (or_introl eq_refl)).
  - pose proof (ascending_head x y l1 l2 H1 H2 Hmem) as ->.
    f_equal. inversion H1 as [|? ? Hs1 Hx]; inversion H2 as [|? ? Hs2 Hy]; subst.
    rewrite List.Forall_forall in Hx, Hy.
    apply IH; [assumption | assumption|].
    intros z. split; intros Hz.
    + destruct (proj1 (Hmem z) (or_intror Hz)) as [<- | Hin]; [|exact Hin].
      destruct (R_irrefl _ (Hx _ Hz)).
    + destruct (proj2 (Hmem z) (or_intror Hz)) as [<- | Hin]; [|exact Hin].
      destruct (R_irrefl _ (Hy _ Hz)).
Qed.

End Ascending.

(** ** Sorting and deduplication *)

Section Sorting.

Context {A : Type} (ltb : A -> A -> bool).

Local Abbreviation lt := (lt_of ltb).

Lemma insort_perm (x : A) (l : list A) : Permutation (PySeq.insort ltb x l) (x :: l).
Proof.
  induction l as [|y l IH]; cbn [PySeq.insort]; [reflexivity|].
  destruct (ltb x y); [reflexivity|].
  rewrite IH. apply perm_swap.
Qed.

Lemma sorted_fold_perm (l acc : list A) :
  Permutation (fold_left (fun acc x => PySeq.insort ltb x acc) l acc) (acc ++ l).
Proof.
  revert acc. induction l as [|x l IH]; intros acc; cbn [fold_left].
  - rewrite app_nil_r. reflexivity.
  - rewrite IH, insort_perm. apply Permutation_middle.
Qed.

(** [sorted] returns the values it was given, each as often. *)
Lemma sorted_perm (l : list A) : Permutation (PySeq.sorted ltb l) l.
Proof. unfold PySeq.sorted. apply (sorted_fold_perm l []). Qed.

Lemma sorted_In (l : list A) (x : A) : In x (PySeq.sorted ltb l) <-> In x l.
Proof.
  split; apply Permutation_in; [apply sorted_perm | symmetry; apply sorted_perm].
Qed.

Hypothesis Hord : strict_total ltb.

Lemma insort_sorted (x : A) (l : list A) :
  ~ In x l -> StronglySorted lt l -> StronglySorted lt (PySeq.insort ltb x l).
Proof.
  intros Hx Hs. induction Hs as [|y l Hs IH Hall]; cbn [PySeq.insort].
  - repeat constructor.
  - destruct (ltb x y) eqn:Hxy.
    + constructor; [constructor; assumption|].
      constructor; [exact Hxy|].
      eapply Forall_impl; [exact Hall|]. intros z Hz.
      apply (lt_trans ltb Hord x y z); assumption.
    + constructor; [apply IH; intros Hin; apply Hx; right; exact Hin|].
      apply List.Forall_forall. intros z Hz.
      apply (Permutation_in _ (insort_perm x l)) in Hz. destruct Hz as [<- | Hz].
      * destruct (ltb y x) eqn:Hyx; [exact Hyx|]. exfalso. apply Hx. left.
        symmetry. apply (lt_total ltb Hord); assumption.
      * rewrite List.Forall_forall in Hall. apply Hall, Hz.
Qed.

Lemma sorted_fold_sorted (l acc : list A) :
  StronglySorted lt acc -> NoDup (acc ++ l) ->
  StronglySorted lt (fold_left (fun acc x => PySeq.insort ltb x acc) l acc).
Proof.
  revert acc. induction l as [|x l IH]; intros acc Hs Hnd; cbn [fold_left]; [exact Hs|].
  apply IH.
  - apply insort_sorted; [|exact Hs].
    apply NoDup_app in Hnd. destruct Hnd as (_ & Hnd & _).
    intros Hin. apply list_elem_of_In in Hin. apply (Hnd _ Hin). left.
  - rewrite insort_perm. cbn [app]. rewrite Permutation_middle. exact Hnd.
Qed.

(** On values that are pairwise different [sorted] is strictly
    ascending. *)
Lemma sorted_strictly (l : list A) :
  NoDup l -> StronglySorted lt (PySeq.sorted ltb l).
Proof. intros Hnd. apply (sorted_fold_sorted l []); [constructor | exact Hnd]. Qed.

(** A strictly ascending list is determined by its members. *)
Lemma strictly_sorted_unique (l1 l2 : list A) :
  StronglySorted lt l1 -> StronglySorted lt l2 ->
  (forall z, In z l1 <-> In z l2) -> l1 = l2.
Proof.
  apply ascending_unique.
  - intros x H. unfold lt_of in H. rewrite (lt_irrefl ltb Hord) in H. discriminate.
  - intros x y z. apply (lt_trans ltb Hord).
Qed.

Lemma strictly_sorted_NoDup (l : list A) : StronglySorted lt l -> NoDup l.
Proof.
  induction 1 as [|x l Hs IH Hall]; [constructor|].
  apply NoDup_cons_2; [|exact IH]. intros Hin. apply list_elem_of_In in Hin.
  rewrite List.Forall_forall in Hall. specialize (Hall _ Hin).
  unfold lt_of in Hall. rewrite (lt_irrefl ltb Hord) in Hall. discriminate.
Qed.

End Sorting.

Section Unique.

Context {A : Type} (eqb : A -> A -> bool).
Hypothesis eqb_eq : forall x y, eqb x y = true <-> x = y.

Lemma existsb_eqb_In (x : A) (l : list A) : existsb (eqb x) l = true <-> In x l.
Proof.
  rewrite existsb_exists. split.
  - intros [y [Hin Hy]]. apply eqb_eq in Hy. subst. exact Hin.
  - intros Hin. exists x. split; [exact Hin | apply eqb_eq; reflexivity].
Qed.

Lemma unique_fold (l seen : list A) :
  NoDup seen ->
  NoDup (fold_left (fun seen x => if existsb (eqb x) seen then seen else seen ++ [x]) l seen)
  /\ forall x,
      In x (fold_left (fun seen x => if existsb (eqb x) seen then seen else seen ++ [x]) l seen)
      <-> In x seen \/ In x l.
Proof.
  revert seen. induction l as [|y l IH]; intros seen Hnd; cbn [fold_left].
  - split; [exact Hnd|]. intros x. cbn [In]. tauto.
  - destruct (existsb (eqb y) seen) eqn:Hy.
    + destruct (IH seen Hnd) as [H1 H2]. split; [exact H1|].
      intros x. rewrite H2. cbn [In]. apply existsb_eqb_In in Hy.
      split; [tauto|]. intros [H | [<- | H]]; auto.
    + assert (Hnd' : NoDup (seen ++ [y])).
      { apply NoDup_app. split; [exact Hnd|]. split; [|apply NoDup_singleton].
        intros z Hz Hzy. apply list_elem_of_In in Hz. apply list_elem_of_In in Hzy.
        destruct Hzy as [<- | []].
        apply existsb_eqb_In in Hz. congruence. }
      destruct (IH _ Hnd') as [H1 H2]. split; [exact H1|].
      intros x. rewrite H2, in_app_iff. cbn [In]. tauto.
Qed.

(** [unique] keeps every value, once. *)
Lemma unique_NoDup (l : list A) : NoDup (PySeq.unique eqb l).
Proof. apply (unique_fold l []). constructor. Qed.

Lemma unique_In (l : list A) (x : A) : In x (PySeq.unique eqb l) <-> In x l.
Proof.
  unfold PySeq.unique. rewrite (proj2 (unique_fold l [] (NoDup_nil_2))). cbn [In]. tauto.
Qed.

End Unique.

(** ** Splitting and stripping *)

Section Tokens.

Variable sep : ascii.

Lemma split_not_nil (s : string) : PySeq.split sep s <> [].
Proof.
  destruct s as [|c s]; cbn [PySeq.split]; [discriminate|].
  destruct (Ascii.eqb c sep); [discriminate|].
  destruct (PySeq.split sep s); discriminate.
Qed.

Lemma split_cons (c : ascii) (s : string) :
  PySeq.split sep (String c s)
  = if Ascii.eqb c sep then EmptyString :: PySeq.split sep s
    else match PySeq.split sep s with
         | t :: ts => String c t :: ts
         | [] => [String c EmptyString]
         end.
Proof. reflexivity. Qed.

Lemma join_cons (t : string) (ts : list string) :
  ts <> [] ->
  PySeq.join (String sep EmptyString) (t :: ts)
  = String.append t (String sep (PySeq.join (String sep EmptyString) ts)).
Proof. destruct ts; [contradiction|]. reflexivity. Qed.

Lemma join_split (s : string) :
  PySeq.join (String sep EmptyString) (PySeq.split sep s) = s.
Proof.
  induction s as [|c s IH]; [reflexivity|]. rewrite split_cons.
  destruct (Ascii.eqb c sep) eqn:Hc.
  - apply Ascii.eqb_eq in Hc. subst c.
    rewrite join_cons by apply split_not_nil. rewrite IH. reflexivity.
  - pose proof (split_not_nil s) as Hne.
    destruct (PySeq.split sep s) as [|t ts]; [contradiction|].
    destruct ts as [|t' ts].
    + cbn in IH |- *. rewrite IH. reflexivity.
    + rewrite join_cons by discriminate. rewrite join_cons in IH by discriminate.
      cbn [String.append]. rewrite IH. reflexivity.
Qed.

Lemma split_no_sep (s t : string) :
  In t (PySeq.split sep s) -> ~ In sep (list_ascii_of_string t).
Proof.
  revert t. induction s as [|c s IH]; intros t.
  - cbn. intros [<- | []]. intros [].
  - rewrite split_cons. destruct (Ascii.eqb c sep) eqn:Hc.
    + intros [<- | Hin]; [intros [] | apply IH, Hin].
    + apply Ascii.eqb_neq in Hc. pose proof (split_not_nil s) as Hne.
      destruct (PySeq.split sep s) as [|t0 ts]; [contradiction|].
      intros [<- | Hin].
      * cbn [list_ascii_of_string In]. intros [Heq | Hin]; [congruence|].
        apply (IH t0); [left; reflexivity | exact Hin].
      * apply IH. right. exact Hin.
Qed.

Lemma split_length (s : string) :
  List.length (PySeq.split sep s) = S (count_char sep s).
Proof.
  induction s as [|c s IH]; [reflexivity|]. rewrite split_cons. cbn [count_char].
  destruct (Ascii.eqb c sep); cbn [List.length]; [rewrite IH; reflexivity|].
  pose proof (split_not_nil s) as Hne.
  destruct (PySeq.split sep s) as [|t ts]; [contradiction|]. exact IH.
Qed.

Lemma split_no_sep_one (t : string) :
  ~ In sep (list_ascii_of_string t) -> PySeq.split sep t = [t].
Proof.
  induction t as [|c t IH]; [reflexivity|]. cbn [list_ascii_of_string In].
  intros H. rewrite split_cons.
  destruct (Ascii.eqb c sep) eqn:Hc;
    [apply Ascii.eqb_eq in Hc; exfalso; apply H; left; exact Hc|].
  rewrite IH by (intros Hin; apply H; right; exact Hin). reflexivity.
Qed.

Lemma split_append (t rest : string) :
  ~ In sep (list_ascii_of_string t) ->
  PySeq.split sep (String.append t (String sep rest)) = t :: PySeq.split sep rest.
Proof.
  induction t as [|c t IH]; cbn [list_ascii_of_string In String.append]; intros H.
  - rewrite split_cons, Ascii.eqb_refl. reflexivity.
  - rewrite split_cons.
    destruct (Ascii.eqb c sep) eqn:Hc;
      [apply Ascii.eqb_eq in Hc; exfalso; apply H; left; exact Hc|].
    rewrite IH by (intros Hin; apply H; right; exact Hin). reflexivity.
Qed.

Lemma split_join (parts : list string) :
  parts <> [] ->
  Forall (fun t => ~ In sep (list_ascii_of_string t)) parts ->
  PySeq.split sep (PySeq.join (String sep EmptyString) parts) = parts.
Proof.
  intros Hne Hall. induction Hall as [|t ts Ht Hts IH]; [contradiction|].
  destruct ts as [|t' ts].
  - cbn [PySeq.join String.concat]. apply split_no_sep_one, Ht.
  - rewrite join_cons by discriminate. rewrite split_append by exact Ht.
    rewrite IH by discriminate. reflexivity.
Qed.

End Tokens.

Section Stripping.

Lemma append_assoc (a b c : string) :
  String.append (String.append a b) c = String.append a (String.append b c).
Proof. induction a as [|x a IH]; cbn [String.append]; [reflexivity|]. rewrite IH. reflexivity. Qed.

Lemma append_nil_r (a : string) : String.append a EmptyString = a.
Proof. induction a as [|x a IH]; cbn [String.append]; [reflexivity|]. rewrite IH. reflexivity. Qed.

Lemma contains_refl (s : string) : PyStr.contains s s = true.
Proof.
  apply contains_spec. exists EmptyString, EmptyString.
  cbn [String.append]. rewrite append_nil_r. reflexivity.
Qed.

Lemma contains_trans (a b c : string) :
  PyStr.contains a b = true -> PyStr.contains b c = true -> PyStr.contains a c = true.
Proof.
  rewrite !contains_spec. intros (p1 & q1 & ->) (p2 & q2 & ->).
  exists (String.append p2 p1), (String.append q1 q2).
  rewrite !append_assoc. reflexivity.
Qed.

Lemma lstrip_suffix (s : string) : exists pre, s = String.append pre (PyStr.lstrip s).
Proof.
  induction s as [|c s [pre IH]]; [exists EmptyString; reflexivity|].
  cbn [PyStr.lstrip]. destruct (PyStr.is_space c).
  - exists (String c pre). cbn [String.append]. rewrite <- IH. reflexivity.
  - exists EmptyString. reflexivity.
Qed.

Lemma rstrip_prefix (s : string) : exists post, s = String.append (PyStr.rstrip s) post.
Proof.
  induction s as [|c s [post IH]]; [exists EmptyString; reflexivity|].
  cbn [PyStr.rstrip]. destruct (PyStr.rstrip s) as [|d t] eqn:Hr.
  - destruct (PyStr.is_space c).
    + exists (String c s). reflexivity.
    + exists s. reflexivity.
  - exists post. cbn [String.append] in IH |- *. rewrite <- IH. reflexivity.
Qed.

(** What [strip] returns occurs in its argument. *)
Lemma strip_contains (s : string) : PyStr.contains (PyStr.strip s) s = true.
Proof.
  apply contains_spec. unfold PyStr.strip.
  destruct (lstrip_suffix s) as [pre Hpre].
  destruct (rstrip_prefix (PyStr.lstrip s)) as [post Hpost].
  exists pre, post. rewrite <- Hpost. exact Hpre.
Qed.

Lemma split_parts (sep : ascii) (s : string) :
  (forall t ts, PySeq.split sep s = t :: ts -> exists post, s = String.append t post) /\
  (forall t, In t (PySeq.split sep s) ->
             exists pre post, s = String.append pre (String.append t post)).
Proof.
  induction s as [|c s [IH1 IH2]].
  - split.
    + intros t ts H. injection H as <- _. exists EmptyString. reflexivity.
    + intros t [<- | []]. exists EmptyString, EmptyString. reflexivity.
  - rewrite split_cons. destruct (Ascii.eqb c sep).
    + split.
      * intros t ts H. injection H as <- _. exists (String c s). reflexivity.
      * intros t [<- | Hin]; [exists EmptyString, (String c s); reflexivity|].
        destruct (IH2 t Hin) as (pre & post & ->).
        exists (String c pre), post. reflexivity.
    + destruct (PySeq.split sep s) as [|t0 ts0] eqn:Hs.
      * destruct (split_not_nil sep s Hs).
      * destruct (IH1 t0 ts0 eq_refl) as [post0 H0]. split.
        -- intros t ts H. injection H as <- _. exists post0.
           cbn [String.append]. rewrite <- H0. reflexivity.
        -- intros t [<- | Hin].
           ++ exists EmptyString, post0. cbn [String.append]. rewrite <- H0. reflexivity.
           ++ destruct (IH2 t (or_intror Hin)) as (pre & post & ->).
              exists (String c pre), post. reflexivity.
Qed.

(** A token of [split] occurs in the text that was split. *)
Lemma split_contains (sep : ascii) (s t : string) :
  In t (PySeq.split sep s) -> PyStr.contains t s = true.
Proof. intros H. apply contains_spec. apply (proj2 (split_parts sep s) t H). Qed.

Lemma blank_app (a b : string) : blank (String.append a b) = blank a && blank b.
Proof.
  induction a as [|c a IH]; cbn [String.append blank]; [reflexivity|].
  rewrite IH, andb_assoc. reflexivity.
Qed.

















End Stripping.

(** ** The option lists *)

Section FloatColumn.

Lemma insort_Some (x : Z) (l : list Z) :
  PySeq.insort PySeq.float_ltb (Some x) (map Some l) = map Some (PySeq.insort Z.ltb x l).
Proof.
  induction l as [|y l IH]; cbn [map PySeq.insort PySeq.float_ltb]; [reflexivity|].
  destruct (x <? y)%Z; cbn [map]; [reflexivity|]. rewrite IH. reflexivity.
Qed.

Lemma sorted_Some (l : list Z) :
  PySeq.sorted PySeq.float_ltb (map Some l) = map Some (PySeq.sorted Z.ltb l).
Proof.
  unfold PySeq.sorted. change (@nil (option Z)) with (map Some (@nil Z)).
  generalize (@nil Z) as acc. induction l as [|x l IH]; intros acc; cbn [map fold_left].
  - reflexivity.
  - rewrite insort_Some. apply IH.
Qed.

Lemma existsb_same_Some (x : Z) (seen : list Z) :
  existsb (PySeq.float_same (Some x)) (map Some seen) = existsb (Z.eqb x) seen.
Proof.
  induction seen as [|y seen IH]; cbn [map existsb PySeq.float_same]; [reflexivity|].
  rewrite IH. reflexivity.
Qed.

Lemma unique_fold_Some (l seen : list Z) :
  fold_left (fun seen x => if existsb (PySeq.float_same x) seen then seen else seen ++ [x])
    (map Some l) (map Some seen)
  = map Some
      (fold_left (fun seen x => if existsb (Z.eqb x) seen then seen else seen ++ [x]) l seen).
Proof.
  revert seen. induction l as [|x l IH]; intros seen; cbn [map fold_left]; [reflexivity|].
  rewrite existsb_same_Some. destruct (existsb (Z.eqb x) seen); [apply IH|].
  replace (map Some seen ++ [Some x]) with (map Some (seen ++ [x]))
    by (rewrite List.map_app; reflexivity).
  apply IH.
Qed.

Lemma unique_Some (l : list Z) :
  PySeq.unique PySeq.float_same (map Some l) = map Some (PySeq.unique Z.eqb l).
Proof. apply (unique_fold_Some l []). Qed.

Lemma dropna_In {A} (col : list (option A)) (x : A) :
  In x (PySeq.dropna col) <-> In (Some x) col.
Proof.
  unfold PySeq.dropna. induction col as [|c col IH]; [reflexivity|].
  rewrite omap_cons. destruct c as [y|]; cbn [id In]; rewrite IH; split.
  - intros [<- | H]; auto.
  - intros [H | H]; [left; congruence | auto].
  - auto.
  - intros [H | H]; [discriminate | exact H].
Qed.

Lemma dated_years (rs : list (Row_ (option Timestamp) string)) :
  Forall (fun r => dateAdded r <> None) rs ->
  exists zs, dt_year (map dateAdded rs) = map Some zs /\
             forall y, In y zs <-> exists r t, In r rs /\ dateAdded r = Some t /\ year t = y.
Proof.
  induction 1 as [|r rs Hr _ (zs & Hz & Hmem)].
  - exists []. split; [reflexivity|]. intros y. split; [intros [] | intros (? & ? & [] & _)].
  - destruct (dateAdded r) as [t|] eqn:Ht; [|contradiction].
    exists (year t :: zs). split.
    + unfold dt_year in *. cbn [map]. rewrite Ht, Hz. reflexivity.
    + intros y. cbn [In]. rewrite Hmem. split.
      * intros [<- | (r' & t' & Hin & Hd & Hy)];
          [exists r, t; auto | exists r', t'; auto].
      * intros (r' & t' & [<- | Hin] & Hd & Hy);
          [left; congruence | right; exists r', t'; auto].
Qed.

End FloatColumn.

(** X1.  Splitting a text at a character and joining the tokens with
    that character gives the text back; no token holds the character,
    and there is one token more than the text has occurrences of it. *)
Theorem X1_split_then_join (sep : ascii) (s : string) :
  PySeq.join (String sep EmptyString) (PySeq.split sep s) = s /\
  (forall t, In t (PySeq.split sep s) -> ~ In sep (list_ascii_of_string t)) /\
  List.length (PySeq.split sep s) = S (count_char sep s).
Proof.
  split; [apply join_split|]. split; [intros t; apply split_no_sep | apply split_length].
Qed.

(** X2.  A non-empty list of texts without the separator, written out
    with the separator between them, is split back into that list. *)
Theorem X2_join_then_split (sep : ascii) (parts : list string) :
  parts <> [] ->
  Forall (fun t => ~ In sep (list_ascii_of_string t)) parts ->
  PySeq.split sep (PySeq.join (String sep EmptyString) parts) = parts.
Proof. apply split_join. Qed.

(** X3.  The vendor list of line 16 is in strictly ascending order, has
    no label twice, and holds exactly the labels that some row carries;
    a missing vendor contributes nothing.  Without the column the line
    raises [KeyError]. *)
Theorem X3_vendor_options (f : DataFrame) :
  match vendors_of f with
  | inr vs =>
      has_column f "vendorProject" = true /\
      StronglySorted (lt_of String.ltb) vs /\
      NoDup vs /\
      forall v, In v vs <-> exists r, In r (rows f) /\ vendorProject r = Some v
  | inl e => e = KeyError "vendorProject" /\ has_column f "vendorProject" = false
  end.
Proof.
  unfold vendors_of, getitem_col.
  destruct (has_column f "vendorProject"); [|split; reflexivity].
  cbn [mbind result_bind rbind mret result_ret].
  pose proof (unique_NoDup String.eqb String.eqb_eq
                (PySeq.dropna (map vendorProject (rows f)))) as Hnd.
  pose proof (sorted_strictly String.ltb string_ltb_strict_total _ Hnd) as Hs.
  split; [reflexivity|]. split; [exact Hs|].
  split; [apply (strictly_sorted_NoDup String.ltb string_ltb_strict_total), Hs|].
  intros v. rewrite sorted_In, (unique_In String.eqb String.eqb_eq).
  rewrite dropna_In, in_map_iff. split.
  - intros (r & Hr & Hin). exists r. auto.
  - intros (r & Hin & Hr). exists r. auto.
Qed.

(** X4.  On a frame without [NaT] the year list of line 15 holds
    integers only, in strictly ascending order, and exactly the years in
    which some row was added. *)
Theorem X4_year_options (f : DataFrame) :
  dated f ->
  match years_of f with
  | inr ys =>
      exists zs,
        ys = map Some zs /\
        StronglySorted (lt_of Z.ltb) zs /\
        forall y, In y zs <->
                  exists r t, In r (rows f) /\ dateAdded r = Some t /\ year t = y
  | inl e => e = KeyError "dateAdded" /\ has_column f "dateAdded" = false
  end.
Proof.
  intros Hd. unfold years_of, getitem_col.
  destruct (has_column f "dateAdded"); [|split; reflexivity].
  cbn [mbind result_bind rbind mret result_ret].
  destruct (dated_years (rows f) Hd) as (zs & Hz & Hmem).
  exists (PySeq.sorted Z.ltb (PySeq.unique Z.eqb zs)).
  split; [rewrite <- sorted_Some, <- unique_Some; do 2 f_equal; exact Hz|]. split.
  - apply (sorted_strictly Z.ltb Z_ltb_strict_total), (unique_NoDup Z.eqb Z.eqb_eq).
  - intros y. rewrite sorted_In, (unique_In Z.eqb Z.eqb_eq). apply Hmem.
Qed.

(** X5.  The token list of line 17 is in strictly ascending order and
    holds exactly the texts that [split(',')] cuts out of the [cwes]
    text of some row; a missing cell contributes nothing. *)
Theorem X5_cwe_tokens (f : DataFrame) :
  match cwes_of f with
  | inr toks =>
      has_column f "cwes" = true /\
      StronglySorted (lt_of String.ltb) toks /\
      forall t,
        In t toks <->
        exists r text,
          In r (rows f) /\ cwes r = Some text /\ In t (PySeq.split ","%char text)
  | inl e => e = KeyError "cwes" /\ has_column f "cwes" = false
  end.
Proof.
  unfold cwes_of, getitem_col.
  destruct (has_column f "cwes"); [|split; reflexivity].
  cbn [mbind result_bind rbind mret result_ret].
  split; [reflexivity|]. split.
  - apply (sorted_strictly String.ltb string_ltb_strict_total),
      (unique_NoDup String.eqb String.eqb_eq).
  - intros t. rewrite sorted_In, (unique_In String.eqb String.eqb_eq), in_concat.
    split.
    + intros (toks & Htoks & Ht). apply in_map_iff in Htoks.
      destruct Htoks as (text & <- & Htext).
      apply dropna_In, in_map_iff in Htext. destruct Htext as (r & Hr & Hin).
      exists r, text. auto.
    + intros (r & text & Hin & Hr & Ht).
      exists (PySeq.split ","%char text). split; [|exact Ht].
      apply in_map_iff. exists text. split; [reflexivity|].
      apply dropna_In, in_map_iff. exists r. auto.
Qed.

(** ** Selections compared *)

Section Selections.

Lemma filter_Permutation_bool {A} (p : A -> bool) (l l' : list A) :
  Permutation l l' -> Permutation (List.filter p l) (List.filter p l').
Proof.
  induction 1 as [|x l l' _ IH|x y l|l l' l'' _ IH1 _ IH2]; cbn [List.filter].
  - constructor.
  - destruct (p x); [constructor|]; exact IH.
  - destruct (p x), (p y); try reflexivity. apply perm_swap.
  - etransitivity; eassumption.
Qed.

Lemma columns_lost_ext (ys ys' : option (list Z)) (vs vs' cs cs' : option (list string))
    (f f' : DataFrame) :
  truthy cs = truthy cs' ->
  Permutation (rows f) (rows f') ->
  (forall r, In r (rows f) ->
             Spec.year_ok ys r && Spec.vendor_ok vs r
             = Spec.year_ok ys' r && Spec.vendor_ok vs' r) ->
  columns_lost ys vs cs f = columns_lost ys' vs' cs' f'.
Proof.
  intros Ht Hperm Hext. unfold columns_lost. rewrite Ht. f_equal.
  rewrite (filter_ext_in _ _ _ Hext).
  pose proof (filter_Permutation_bool
                (fun r => Spec.year_ok ys' r && Spec.vendor_ok vs' r) _ _ Hperm) as Hp.
  destruct (List.filter _ (rows f)) as [|a k], (List.filter _ (rows f')) as [|a' k'];
    try reflexivity.
  - apply Permutation_nil in Hp. discriminate.
  - symmetry in Hp. apply Permutation_nil in Hp. discriminate.
Qed.

Lemma groupby_size_perm (keys keys' : list (option Period)) :
  Permutation keys keys' -> groupby_size keys = groupby_size keys'.
Proof.
  intros Hp. apply (ascending_unique entry_lt).
  - intros x H. unfold entry_lt, period_lt in H. rewrite period_ltb_irrefl in H.
    discriminate.
  - intros x y z. apply period_lt_trans.
  - apply groupby_sorted.
  - apply groupby_sorted.
  - intros [p n]. rewrite !groupby_In. unfold key_count.
    rewrite (Permutation_length (filter_Permutation_bool _ _ _ Hp)). reflexivity.
Qed.

Lemma figure_of_perm (kept kept' : list Row) :
  Permutation kept kept' -> figure_of kept = figure_of kept'.
Proof.
  intros Hp.
  assert (Hm : monthly kept = monthly kept').
  { unfold monthly, dt_to_period. f_equal. apply groupby_size_perm.
    apply Permutation_map, Permutation_map, Hp. }
  destruct kept as [|r k], kept' as [|r' k']; try reflexivity.
  - apply Permutation_nil in Hp. discriminate.
  - symmetry in Hp. apply Permutation_nil in Hp. discriminate.
  - unfold figure_of. rewrite Hm. reflexivity.
Qed.

Lemma satisfies_ext (ys ys' : option (list Z)) (vs vs' cs cs' : option (list string))
    (mode mode' : string) (r : Row) :
  Spec.year_ok ys r = Spec.year_ok ys' r ->
  Spec.vendor_ok vs r = Spec.vendor_ok vs' r ->
  Spec.cwe_ok cs r = Spec.cwe_ok cs' r ->
  Spec.ransomware_ok mode r = Spec.ransomware_ok mode' r ->
  Spec.satisfies ys vs cs mode r = Spec.satisfies ys' vs' cs' mode' r.
Proof. unfold Spec.satisfies. intros -> -> -> ->. reflexivity. Qed.

(** Two selections that agree on every row of [df] give the same
    outcome. *)
Lemma update_graph_ext (ys ys' : option (list Z)) (vs vs' cs cs' : option (list string))
    (mode mode' : string) (s : State) (f : DataFrame) :
  df_is s f -> has_kev_columns f = true ->
  truthy cs = truthy cs' ->
  mode_reads_column mode = mode_reads_column mode' ->
  (forall r, In r (rows f) -> Spec.year_ok ys r = Spec.year_ok ys' r) ->
  (forall r, In r (rows f) -> Spec.vendor_ok vs r = Spec.vendor_ok vs' r) ->
  (forall r, In r (rows f) -> Spec.cwe_ok cs r = Spec.cwe_ok cs' r) ->
  (forall r, In r (rows f) -> Spec.ransomware_ok mode r = Spec.ransomware_ok mode' r) ->
  fst (update_graph ys vs cs mode s) = fst (update_graph ys' vs' cs' mode' s).
Proof.
  intros Hdf Hcols Ht Hm Hy Hv Hc Hr.
  rewrite (update_graph_result ys vs cs mode s f Hdf Hcols).
  rewrite (update_graph_result ys' vs' cs' mode' s f Hdf Hcols).
  rewrite (columns_lost_ext ys ys' vs vs' cs cs' f f Ht (Permutation_refl _)), Hm.
  - destruct (columns_lost ys' vs' cs' f && mode_reads_column mode'); [reflexivity|].
    do 2 f_equal. apply filter_ext_in. intros r Hin.
    apply satisfies_ext; auto.
  - intros r Hin. rewrite (Hy r Hin), (Hv r Hin). reflexivity.
Qed.

Lemma truthy_items {A} (xs : option (list A)) :
  truthy xs = true <-> exists x, In x (items xs).
Proof.
  destruct xs as [[|x l]|]; cbn [truthy items].
  - split; [discriminate | intros [? []]].
  - split; [intros _; exists x; left; reflexivity | reflexivity].
  - split; [discriminate | intros [? []]].
Qed.

Lemma same_members_truthy {A} (xs xs' : option (list A)) :
  (forall x, In x (items xs) <-> In x (items xs')) -> truthy xs = truthy xs'.
Proof.
  intros H. destruct (truthy xs) eqn:T, (truthy xs') eqn:T'; try reflexivity.
  - apply truthy_items in T. destruct T as [x Hx]. apply H in Hx.
    rewrite <- T'. symmetry. apply truthy_items. exists x. exact Hx.
  - apply truthy_items in T'. destruct T' as [x Hx]. apply H in Hx.
    rewrite <- T. apply truthy_items. exists x. exact Hx.
Qed.

Lemma same_members_existsb {A} (p : A -> bool) (l l' : list A) :
  (forall x, In x l <-> In x l') -> existsb p l = existsb p l'.
Proof.
  intros H. destruct (existsb p l) eqn:E, (existsb p l') eqn:E'; try reflexivity.
  - apply existsb_exists in E. destruct E as (x & Hx & Hp).
    rewrite <- E'. symmetry. apply existsb_exists. exists x. split; [apply H, Hx | exact Hp].
  - apply existsb_exists in E'. destruct E' as (x & Hx & Hp).
    rewrite <- E. apply existsb_exists. exists x. split; [apply H, Hx | exact Hp].
Qed.

Lemma some_row_keeps_columns (ys : option (list Z)) (vs cs : option (list string))
    (mode : string) (f : DataFrame) (r : Row) :
  In r (rows f) -> Spec.satisfies ys vs cs mode r = true ->
  columns_lost ys vs cs f = false.
Proof.
  intros Hin Hsat. unfold columns_lost.
  assert (H : In r (List.filter (fun r => Spec.year_ok ys r && Spec.vendor_ok vs r) (rows f))).
  { apply filter_In. split; [exact Hin|]. apply (satisfies_pre ys vs cs mode r Hsat). }
  destruct (List.filter _ (rows f)); [destruct H|]. apply andb_false_r.
Qed.

(** A selection that some row satisfies draws the chart. *)
Lemma some_row_draws_chart (ys : option (list Z)) (vs cs : option (list string))
    (mode : string) (s : State) (f : DataFrame) (r : Row) :
  df_is s f -> has_kev_columns f = true -> dated f ->
  In r (rows f) -> Spec.satisfies ys vs cs mode r = true ->
  exists fig,
    fst (update_graph ys vs cs mode s) = inr fig /\
    title fig = "Monthly Count of Exploited CVEs" /\
    1 <= Spec.sum_counts (data fig).
Proof.
  intros Hdf Hcols Hd Hin Hsat.
  rewrite (update_graph_result ys vs cs mode s f Hdf Hcols).
  rewrite (some_row_keeps_columns ys vs cs mode f r Hin Hsat). cbn [andb].
  eexists. split; [reflexivity|].
  assert (Hk : In r (List.filter (Spec.satisfies ys vs cs mode) (rows f)))
    by (apply filter_In; auto).
  split.
  - destruct (List.filter _ (rows f)); [destruct Hk | reflexivity].
  - rewrite figure_of_data, sum_counts_monthly by (apply Forall_filter, Hd).
    destruct (List.filter _ (rows f)); [destruct Hk | cbn [List.length]; lia].
Qed.

End Selections.

Section OptionMembers.

Lemma float_same_eq (a b : option Z) : PySeq.float_same a b = true <-> a = b.
Proof.
  destruct a as [x|], b as [y|]; cbn [PySeq.float_same].
  - rewrite Z.eqb_eq. split; congruence.
  - split; discriminate.
  - split; discriminate.
  - split; reflexivity.
Qed.

Lemma years_of_In (f : DataFrame) (ys : list (option Z)) (y : Z) :
  years_of f = inr ys ->
  (In (Some y) ys <-> exists r t, In r (rows f) /\ dateAdded r = Some t /\ year t = y).
Proof.
  unfold years_of, getitem_col. destruct (has_column f "dateAdded"); [|discriminate].
  cbn [mbind result_bind rbind mret result_ret]. intros H. injection H as <-.
  rewrite sorted_In, (unique_In _ float_same_eq). unfold dt_year.
  rewrite map_map, in_map_iff. split.
  - intros (r & Hy & Hin). destruct (dateAdded r) as [t|] eqn:Ht; [|discriminate].
    injection Hy as <-. exists r, t. auto.
  - intros (r & t & Hin & Ht & <-). exists r. rewrite Ht. auto.
Qed.

Lemma vendors_of_In (f : DataFrame) (vs : list string) (v : string) :
  vendors_of f = inr vs ->
  (In v vs <-> exists r, In r (rows f) /\ vendorProject r = Some v).
Proof.
  unfold vendors_of, getitem_col. destruct (has_column f "vendorProject"); [|discriminate].
  cbn [mbind result_bind rbind mret result_ret]. intros H. injection H as <-.
  rewrite sorted_In, (unique_In String.eqb String.eqb_eq), dropna_In, in_map_iff.
  split; intros (r & H1 & H2); exists r; auto.
Qed.

Lemma cwes_of_In (f : DataFrame) (toks : list string) (t : string) :
  cwes_of f = inr toks -> In t toks ->
  exists r text, In r (rows f) /\ cwes r = Some text /\ In t (PySeq.split ","%char text).
Proof.
  unfold cwes_of, getitem_col. destruct (has_column f "cwes"); [|discriminate].
  cbn [mbind result_bind rbind mret result_ret]. intros H. injection H as <-.
  rewrite sorted_In, (unique_In String.eqb String.eqb_eq), in_concat.
  intros (ts & Hts & Ht). apply in_map_iff in Hts. destruct Hts as (text & <- & Htext).
  apply dropna_In, in_map_iff in Htext. destruct Htext as (r & Hr & Hin).
  exists r, text. auto.
Qed.

End OptionMembers.

(** X6.  Every value of the CWE dropdown, selected on its own with the
    mode [All], matches at least one record: the callback draws the
    chart, not the placeholder, and counts at least one record. *)
Theorem X6_cwe_option_matches (s : State) (f : DataFrame) (toks : list string)
    (opt : string) :
  df_is s f -> has_kev_columns f = true -> dated f ->
  cwes_of f = inr toks -> In opt (cwe_dropdown_values toks) ->
  exists fig,
    fst (update_graph None None (Some [opt]) "All" s) = inr fig /\
    title fig = "Monthly Count of Exploited CVEs" /\
    1 <= Spec.sum_counts (data fig).
Proof.
  intros Hdf Hcols Hd Htoks Hopt.
  unfold cwe_dropdown_values in Hopt. apply in_map_iff in Hopt.
  destruct Hopt as (t & <- & Ht).
  destruct (cwes_of_In f toks t Htoks Ht) as (r & text & Hin & Hr & Hsplit).
  apply (some_row_draws_chart None None (Some [PyStr.strip t]) "All" s f r Hdf Hcols Hd Hin).
  unfold Spec.satisfies, Spec.cwe_ok. rewrite Hr.
  cbn [Spec.year_ok Spec.vendor_ok Spec.ransomware_ok truthy negb orb andb items existsb
       str String.eqb Ascii.eqb Bool.eqb].
  rewrite orb_false_r, andb_true_r.
  apply (contains_trans _ t); [apply strip_contains | apply (split_contains _ _ _ Hsplit)].
Qed.

(** X7.  Every vendor of the list of line 16, selected on its own with
    the mode [All], matches at least one record. *)
Theorem X7_vendor_option_matches (s : State) (f : DataFrame) (vs : list string)
    (v : string) :
  df_is s f -> has_kev_columns f = true -> dated f ->
  vendors_of f = inr vs -> In v vs ->
  exists fig,
    fst (update_graph None (Some [v]) None "All" s) = inr fig /\
    title fig = "Monthly Count of Exploited CVEs" /\
    1 <= Spec.sum_counts (data fig).
Proof.
  intros Hdf Hcols Hd Hvs Hv.
  apply (vendors_of_In f vs v Hvs) in Hv. destruct Hv as (r & Hin & Hr).
  apply (some_row_draws_chart None (Some [v]) None "All" s f r Hdf Hcols Hd Hin).
  unfold Spec.satisfies, Spec.vendor_ok. rewrite Hr.
  cbn [Spec.year_ok Spec.cwe_ok Spec.ransomware_ok truthy negb orb andb items existsb
       String.eqb Ascii.eqb Bool.eqb].
  rewrite String.eqb_refl. reflexivity.
Qed.

(** X8.  Every year of the list of line 15, selected on its own with the
    mode [All], matches at least one record. *)
Theorem X8_year_option_matches (s : State) (f : DataFrame) (ys : list (option Z))
    (y : Z) :
  df_is s f -> has_kev_columns f = true -> dated f ->
  years_of f = inr ys -> In (Some y) ys ->
  exists fig,
    fst (update_graph (Some [y]) None None "All" s) = inr fig /\
    title fig = "Monthly Count of Exploited CVEs" /\
    1 <= Spec.sum_counts (data fig).
Proof.
  intros Hdf Hcols Hd Hys Hy.
  apply (years_of_In f ys y Hys) in Hy. destruct Hy as (r & t & Hin & Hr & <-).
  apply (some_row_draws_chart (Some [year t]) None None "All" s f r Hdf Hcols Hd Hin).
  unfold Spec.satisfies, Spec.year_ok. rewrite Hr.
  cbn [Spec.vendor_ok Spec.cwe_ok Spec.ransomware_ok truthy negb orb andb items existsb
       String.eqb Ascii.eqb Bool.eqb].
  rewrite Z.eqb_refl. reflexivity.
Qed.

(** X9.  On a frame without [NaT], selecting every year of the list of
    line 15 gives the same outcome as selecting no year, whatever the
    other inputs. *)
Theorem X9_all_years_is_no_year (vs cs : option (list string)) (mode : string)
    (s : State) (f : DataFrame) (zs : list Z) :
  df_is s f -> has_kev_columns f = true -> dated f ->
  years_of f = inr (map Some zs) ->
  fst (update_graph (Some zs) vs cs mode s) = fst (update_graph None vs cs mode s).
Proof.
  intros Hdf Hcols Hd Hys.
  apply (update_graph_ext _ _ _ _ _ _ _ _ s f Hdf Hcols); try reflexivity.
  intros r Hin. unfold Spec.year_ok. cbn [truthy negb orb items].
  unfold dated in Hd. rewrite List.Forall_forall in Hd. specialize (Hd r Hin).
  destruct (dateAdded r) as [t|] eqn:Ht; [|contradiction].
  assert (Hy : In (Some (year t)) (map Some zs)).
  { apply (years_of_In f _ _ Hys). exists r, t. auto. }
  apply in_map_iff in Hy. destruct Hy as (z & Hz & Hzin). injection Hz as ->.
  assert (He : existsb (Z.eqb (year t)) zs = true).
  { apply existsb_exists. exists (year t). split; [exact Hzin | apply Z.eqb_refl]. }
  rewrite He. apply orb_true_r.
Qed.

(** X10.  The callback reads its three selections as sets: two calls
    whose selections have the same members, in any order and with any
    repetitions, have the same outcome. *)
Theorem X10_selections_are_sets (ys ys' : option (list Z))
    (vs vs' cs cs' : option (list string)) (mode : string) (s : State) (f : DataFrame) :
  df_is s f -> has_kev_columns f = true ->
  (forall y, In y (items ys) <-> In y (items ys')) ->
  (forall v, In v (items vs) <-> In v (items vs')) ->
  (forall c, In c (items cs) <-> In c (items cs')) ->
  fst (update_graph ys vs cs mode s) = fst (update_graph ys' vs' cs' mode s).
Proof.
  intros Hdf Hcols Hy Hv Hc.
  apply (update_graph_ext _ _ _ _ _ _ _ _ s f Hdf Hcols).
  - apply same_members_truthy, Hc.
  - reflexivity.
  - intros r _. unfold Spec.year_ok. rewrite (same_members_truthy _ _ Hy).
    destruct (dateAdded r); [|reflexivity].
    rewrite (same_members_existsb _ _ _ Hy). reflexivity.
  - intros r _. unfold Spec.vendor_ok. rewrite (same_members_truthy _ _ Hv).
    destruct (vendorProject r); [|reflexivity].
    rewrite (same_members_existsb _ _ _ Hv). reflexivity.
  - intros r _. unfold Spec.cwe_ok. rewrite (same_members_truthy _ _ Hc).
    rewrite (same_members_existsb _ _ _ Hc). reflexivity.
  - reflexivity.
Qed.

(** X11.  A ransomware input that is neither [Known] nor [Unknown], in
    this exact spelling, is treated as [All]: the callback applies no
    ransomware filter and does not raise. *)
Theorem X11_other_mode_is_all (ys : option (list Z)) (vs cs : option (list string))
    (mode : string) (s : State) (f : DataFrame) :
  df_is s f -> has_kev_columns f = true ->
  mode <> "Known" -> mode <> "Unknown" ->
  fst (update_graph ys vs cs mode s) = fst (update_graph ys vs cs "All" s) /\
  exists fig, fst (update_graph ys vs cs mode s) = inr fig.
Proof.
  intros Hdf Hcols Hk Hu.
  apply String.eqb_neq in Hk. apply String.eqb_neq in Hu.
  assert (Hm : mode_reads_column mode = false)
    by (unfold mode_reads_column; rewrite Hk, Hu; reflexivity).
  split.
  - apply (update_graph_ext _ _ _ _ _ _ _ _ s f Hdf Hcols); try reflexivity.
    + exact Hm.
    + intros r _. unfold Spec.ransomware_ok. rewrite Hk, Hu. reflexivity.
  - rewrite (update_graph_result ys vs cs mode s f Hdf Hcols), Hm, andb_false_r.
    eexists. reflexivity.
Qed.

(** X12.  The outcome does not depend on the order of the rows of the
    dataset: two frames with the same rows in a different order give the
    same figure or the same error. *)
Theorem X12_row_order_irrelevant (ys : option (list Z)) (vs cs : option (list string))
    (mode : string) (s s' : State) (f f' : DataFrame) :
  df_is s f -> has_kev_columns f = true ->
  df_is s' f' -> has_kev_columns f' = true ->
  Permutation (rows f) (rows f') ->
  fst (update_graph ys vs cs mode s) = fst (update_graph ys vs cs mode s').
Proof.
  intros Hdf Hcols Hdf' Hcols' Hp.
  rewrite (update_graph_result ys vs cs mode s f Hdf Hcols).
  rewrite (update_graph_result ys vs cs mode s' f' Hdf' Hcols').
  rewrite (columns_lost_ext ys ys vs vs cs cs f f' eq_refl Hp) by reflexivity.
  destruct (columns_lost ys vs cs f' && mode_reads_column mode); [reflexivity|].
  f_equal. apply figure_of_perm, filter_Permutation_bool, Hp.
Qed.

(** X13.  Whenever the callback returns, the figure is the placeholder
    "No data matches the selected filters." exactly when no row
    satisfies the selection, and the placeholder has no point; otherwise
    the title is "Monthly Count of Exploited CVEs". *)
Theorem X13_placeholder_iff_no_match (ys : option (list Z)) (vs cs : option (list string))
    (mode : string) (s : State) (f : DataFrame) :
  df_is s f -> has_kev_columns f = true ->
  match fst (update_graph ys vs cs mode s) with
  | inr fig =>
      (title fig = "No data matches the selected filters." <->
       List.filter (Spec.satisfies ys vs cs mode) (rows f) = []) /\
      (title fig = "No data matches the selected filters." -> data fig = []) /\
      (title fig <> "No data matches the selected filters." ->
       title fig = "Monthly Count of Exploited CVEs")
  | inl e =>
      e = KeyError "knownRansomwareCampaignUse" /\
      List.filter (Spec.satisfies ys vs cs mode) (rows f) = []
  end.
Proof.
  intros Hdf Hcols.
  rewrite (update_graph_result ys vs cs mode s f Hdf Hcols).
  destruct (columns_lost ys vs cs f && mode_reads_column mode) eqn:Hraise.
  - apply andb_true_iff in Hraise. destruct Hraise as [Hlost _].
    split; [reflexivity | apply (columns_lost_kept ys vs cs mode f Hlost)].
  - destruct (List.filter (Spec.satisfies ys vs cs mode) (rows f)) as [|r k];
      cbn [figure_of px_line_title title data].
    + repeat split; try reflexivity. intros H. contradiction H. reflexivity.
    + split; [split; discriminate|]. split; [discriminate | reflexivity].
Qed.

Section Characters.



End Characters.

(** X14.  Start-up reads the column [dateAdded] first and the column
    [knownRansomwareCampaignUse] after it: on a file without the first
    it raises [KeyError('dateAdded')], on a file with the first and
    without the second [KeyError('knownRansomwareCampaignUse')], and no
    frame is produced in either case. *)
Theorem X14_load_missing_column
    (pd_to_datetime : list (option string) -> list (option Timestamp)) (csv : RawFrame) :
  load pd_to_datetime csv
  = if has_column csv "dateAdded"
    then if has_column csv "knownRansomwareCampaignUse"
         then inr (mkFrame (columns csv)
                     (cleaned_rows (rows csv) (pd_to_datetime (map dateAdded (rows csv)))))
         else inl (KeyError "knownRansomwareCampaignUse")
    else inl (KeyError "dateAdded").
Proof.
  destruct (has_column csv "dateAdded") eqn:Hd.
  - destruct (has_column csv "knownRansomwareCampaignUse") eqn:Hr.
    + apply load_eval; assumption.
    + unfold load. rewrite (getitem_col_ok _ _ _ Hd).
      unfold mbind at 1, result_bind, rbind.
      unfold getitem_col, has_column, dropna_dateAdded. cbn [columns rows].
      fold (has_column csv "knownRansomwareCampaignUse"). rewrite Hr. reflexivity.
  - unfold load, getitem_col. rewrite Hd. reflexivity.
Qed.



(** X17.  Adding fragments to a non-empty CWE selection never removes a
    row: the rows kept under the smaller selection are rows kept under
    the larger one, and the two calls raise together. *)
Theorem X17_more_fragments_keep_more (ys : option (list Z))
    (vs cs cs' : option (list string)) (mode : string) (s : State) (f : DataFrame) :
  df_is s f -> has_kev_columns f = true ->
  truthy cs = true -> incl (items cs) (items cs') ->
  match fst (kept_rows ys vs cs mode s), fst (kept_rows ys vs cs' mode s) with
  | inr kept, inr kept' =>
      kept = List.filter (fun r => cwe_lambda (items cs) (cwes r)) kept'
  | inl e, inl e' => e = e'
  | _, _ => False
  end.
Proof.
  intros Hdf Hcols Tc Hincl.
  assert (Tc' : truthy cs' = true).
  { apply truthy_items in Tc. destruct Tc as [x Hx].
    apply truthy_items. exists x. apply Hincl, Hx. }
  rewrite (kept_rows_result ys vs cs mode s f Hdf Hcols).
  rewrite (kept_rows_result ys vs cs' mode s f Hdf Hcols).
  rewrite (columns_lost_ext ys ys vs vs cs cs' f f) by
      (try reflexivity; rewrite Tc, Tc'; reflexivity).
  destruct (columns_lost ys vs cs' f && mode_reads_column mode); [reflexivity|].
  rewrite filter_filter_andb. apply filter_ext. intros r.
  unfold Spec.satisfies, Spec.cwe_ok, cwe_lambda. rewrite Tc, Tc'. cbn [negb orb].
  destruct (existsb (fun cwe => PyStr.contains cwe (str (cwes r))) (items cs)) eqn:E.
  - apply existsb_exists in E. destruct E as (frag & Hin & Hc).
    assert (E' : existsb (fun cwe => PyStr.contains cwe (str (cwes r))) (items cs') = true).
    { apply existsb_exists. exists frag. split; [apply Hincl, Hin | exact Hc]. }
    rewrite E', !andb_true_r. reflexivity.
  - destruct (Spec.year_ok ys r), (Spec.vendor_ok vs r), (Spec.ransomware_ok mode r),
      (existsb (fun cwe => PyStr.contains cwe (str (cwes r))) (items cs')); reflexivity.
Qed.

(** X18.  The empty text is a substring of every text: a CWE selection
    that holds it filters nothing, and the rows kept are those kept with
    no CWE selection. *)
Theorem X18_empty_fragment_matches_all (ys : option (list Z))
    (vs cs : option (list string)) (mode : string) (s : State) (f : DataFrame) :
  df_is s f -> has_kev_columns f = true ->
  In EmptyString (items cs) ->
  match fst (kept_rows ys vs cs mode s) with
  | inr kept => kept = List.filter (Spec.satisfies ys vs None mode) (rows f)
  | inl e =>
      e = KeyError "knownRansomwareCampaignUse" /\
      columns_lost ys vs cs f = true /\ mode_reads_column mode = true
  end.
Proof.
  intros Hdf Hcols Hin.
  rewrite (kept_rows_result ys vs cs mode s f Hdf Hcols).
  destruct (columns_lost ys vs cs f && mode_reads_column mode) eqn:Hraise.
  - apply andb_true_iff in Hraise. tauto.
  - apply filter_ext. intros r. apply satisfies_ext; try reflexivity.
    unfold Spec.cwe_ok. cbn [truthy negb orb].
    assert (E : existsb (fun frag => PyStr.contains frag (str (cwes r))) (items cs) = true).
    { apply existsb_exists. exists EmptyString. split; [exact Hin | apply contains_empty]. }
    rewrite E. apply orb_true_r.
Qed.

(** X19.  Grouping leaves out the rows whose date is missing: on any
    frame, the counts of the series add up to the number of rows that
    satisfy the selection and carry a date. *)
Theorem X19_counts_skip_undated (ys : option (list Z)) (vs cs : option (list string))
    (mode : string) (s : State) (f : DataFrame) :
  df_is s f -> has_kev_columns f = true ->
  match fst (update_graph ys vs cs mode s) with
  | inr fig =>
      Spec.sum_counts (data fig)
      = List.length
          (List.filter (fun r => Spec.satisfies ys vs cs mode r
                                 && negb (is_NaT (dateAdded r))) (rows f))
  | inl e => e = KeyError "knownRansomwareCampaignUse"
  end.
Proof.
  intros Hdf Hcols.
  rewrite (update_graph_result ys vs cs mode s f Hdf Hcols).
  destruct (columns_lost ys vs cs f && mode_reads_column mode); [reflexivity|].
  rewrite figure_of_data, sum_counts_dates, filter_filter_andb.
  apply (f_equal (@List.length Row)). apply filter_ext. intros r.
  destruct (dateAdded r); reflexivity.
Qed.

(** X20.  For a strict total order and values that are pairwise
    different, [sorted] returns the same list whatever the order of its
    input: the list of line 17 does not depend on the order in which the
    set is iterated. *)
Theorem X20_sorted_ignores_input_order {A} (ltb : A -> A -> bool) (l l' : list A) :
  strict_total ltb -> NoDup l -> Permutation l l' ->
  PySeq.sorted ltb l = PySeq.sorted ltb l'.
Proof.
  intros Hord Hnd Hp.
  assert (Hnd' : NoDup l') by (rewrite <- Hp; exact Hnd).
  apply (strictly_sorted_unique ltb Hord).
  - apply sorted_strictly; assumption.
  - apply sorted_strictly; assumption.
  - intros z. rewrite !sorted_In. split; apply Permutation_in; [exact Hp | symmetry; exact Hp].
Qed.

(** X21.  Selecting every vendor of the list of line 16 keeps exactly
    the rows that have a vendor; when no row has one the list is empty,
    the selection is empty too, and every row is kept. *)
Theorem X21_all_vendors_selected (s : State) (f : DataFrame) (vs : list string) :
  df_is s f -> has_kev_columns f = true ->
  vendors_of f = inr vs ->
  fst (kept_rows None (Some vs) None "All" s)
  = inr (match vs with
         | [] => rows f
         | _ => List.filter (fun r => match vendorProject r with
                                      | Some _ => true
                                      | None => false
                                      end) (rows f)
         end).
Proof.
  intros Hdf Hcols Hvs.
  rewrite (kept_rows_result None (Some vs) None "All" s f Hdf Hcols).
  cbn [columns_lost truthy andb]. apply (f_equal inr).
  destruct vs as [|v0 vs'] eqn:Evs.
  - apply filter_all. reflexivity.
  - rewrite <- Evs in *. apply filter_ext_in. intros r Hin.
    unfold Spec.satisfies, Spec.vendor_ok.
    assert (T : truthy (Some vs) = true) by (rewrite Evs; reflexivity).
    rewrite T.
    cbn [Spec.year_ok Spec.cwe_ok Spec.ransomware_ok truthy negb orb andb items
         String.eqb Ascii.eqb Bool.eqb].
    destruct (vendorProject r) as [v|] eqn:Hv; [|reflexivity].
    rewrite !andb_true_r. apply existsb_exists. exists v. split; [|apply String.eqb_refl].
    apply (vendors_of_In f vs v Hvs). exists r. auto.
Qed.

(** X22.  When at least one row satisfies the selection the callback
    does not raise, under any mode: it draws the chart and counts at
    least one record.  The [KeyError] of line 91 needs a selection that
    no row satisfies. *)
Theorem X22_match_never_raises (ys : option (list Z)) (vs cs : option (list string))
    (mode : string) (s : State) (f : DataFrame) (r : Row) :
  df_is s f -> has_kev_columns f = true -> dated f ->
  In r (rows f) -> Spec.satisfies ys vs cs mode r = true ->
  exists fig,
    fst (update_graph ys vs cs mode s) = inr fig /\
    title fig = "Monthly Count of Exploited CVEs" /\
    1 <= Spec.sum_counts (data fig) /\
    fig = mkFigure "Monthly Count of Exploited CVEs"
            (monthly (List.filter (Spec.satisfies ys vs cs mode) (rows f))).
Proof.
  intros Hdf Hcols Hd Hin Hsat.
  destruct (some_row_draws_chart ys vs cs mode s f r Hdf Hcols Hd Hin Hsat)
    as (fig & Hfig & Ht & Hsum).
  exists fig. split; [exact Hfig|]. split; [exact Ht|]. split; [exact Hsum|].
  rewrite (update_graph_result ys vs cs mode s f Hdf Hcols) in Hfig.
  rewrite (some_row_keeps_columns ys vs cs mode f r Hin Hsat) in Hfig. cbn [andb] in Hfig.
  injection Hfig as <-.
  assert (Hk : In r (List.filter (Spec.satisfies ys vs cs mode) (rows f)))
    by (apply filter_In; auto).
  destruct (List.filter _ (rows f)); [destruct Hk | reflexivity].
Qed.


(** ** The further properties on the examples *)

Section MoreWitnesses.

Import Examples.

Lemma booted_feed_df : df_is (booted feed) (loaded feed).
Proof. vm_compute. reflexivity. Defined.

Lemma loaded_feed_columns : has_kev_columns (loaded feed) = true.
Proof. vm_compute. reflexivity. Defined.

Lemma loaded_feed_dated : dated (loaded feed).
Proof. unfold dated. vm_compute. repeat constructor; discriminate. Defined.

Lemma X2_join_then_split_witness :
  ["CWE-79"; "CWE-89"] <> [] /\
  Forall (fun t => ~ In ","%char (list_ascii_of_string t)) ["CWE-79"; "CWE-89"] /\
  PySeq.split ","%char (PySeq.join (String ","%char EmptyString) ["CWE-79"; "CWE-89"])
  = ["CWE-79"; "CWE-89"].
Proof.
  assert (H1 : ["CWE-79"; "CWE-89"] <> []) by discriminate.
  assert (H2 : Forall (fun t => ~ In ","%char (list_ascii_of_string t)) ["CWE-79"; "CWE-89"]).
  { repeat constructor; cbn; intuition discriminate. }
  split; [exact H1|]. split; [exact H2|].
  exact (X2_join_then_split ","%char _ H1 H2).
Defined.

Lemma X4_year_options_witness :
  dated (loaded feed) /\
  match years_of (loaded feed) with
  | inr ys =>
      exists zs,
        ys = map Some zs /\
        StronglySorted (lt_of Z.ltb) zs /\
        forall y, In y zs <->
                  exists r t, In r (rows (loaded feed)) /\ dateAdded r = Some t /\ year t = y
  | inl e => e = KeyError "dateAdded" /\ has_column (loaded feed) "dateAdded" = false
  end.
Proof.
  split; [exact loaded_feed_dated|].
  exact (X4_year_options (loaded feed) loaded_feed_dated).
Defined.

Lemma X6_cwe_option_matches_witness :
  df_is (booted feed) (loaded feed) /\
  has_kev_columns (loaded feed) = true /\
  dated (loaded feed) /\
  cwes_of (loaded feed) = inr ["CWE-787"; "CWE-79"; "CWE-89"] /\
  In "CWE-79" (cwe_dropdown_values ["CWE-787"; "CWE-79"; "CWE-89"]) /\
  exists fig,
    fst (update_graph None None (Some ["CWE-79"]) "All" (booted feed)) = inr fig /\
    title fig = "Monthly Count of Exploited CVEs" /\
    1 <= Spec.sum_counts (data fig).
Proof.
  assert (H4 : cwes_of (loaded feed) = inr ["CWE-787"; "CWE-79"; "CWE-89"])
    by (vm_compute; reflexivity).
  assert (H5 : In "CWE-79" (cwe_dropdown_values ["CWE-787"; "CWE-79"; "CWE-89"]))
    by (vm_compute; auto).
  split; [exact booted_feed_df|]. split; [exact loaded_feed_columns|].
  split; [exact loaded_feed_dated|]. split; [exact H4|]. split; [exact H5|].
  exact (X6_cwe_option_matches _ _ _ _ booted_feed_df loaded_feed_columns
           loaded_feed_dated H4 H5).
Defined.

Lemma X7_vendor_option_matches_witness :
  df_is (booted feed) (loaded feed) /\
  has_kev_columns (loaded feed) = true /\
  dated (loaded feed) /\
  vendors_of (loaded feed) = inr ["Acme"; "Globex"] /\
  In "Globex" ["Acme"; "Globex"] /\
  exists fig,
    fst (update_graph None (Some ["Globex"]) None "All" (booted feed)) = inr fig /\
    title fig = "Monthly Count of Exploited CVEs" /\
    1 <= Spec.sum_counts (data fig).
Proof.
  assert (H4 : vendors_of (loaded feed) = inr ["Acme"; "Globex"]) by (vm_compute; reflexivity).
  assert (H5 : In "Globex" ["Acme"; "Globex"]) by (right; left; reflexivity).
  split; [exact booted_feed_df|]. split; [exact loaded_feed_columns|].
  split; [exact loaded_feed_dated|]. split; [exact H4|]. split; [exact H5|].
  exact (X7_vendor_option_matches _ _ _ _ booted_feed_df loaded_feed_columns
           loaded_feed_dated H4 H5).
Defined.

Lemma X8_year_option_matches_witness :
  df_is (booted feed) (loaded feed) /\
  has_kev_columns (loaded feed) = true /\
  dated (loaded feed) /\
  years_of (loaded feed) = inr [Some 2021%Z; Some 2022%Z] /\
  In (Some 2022%Z) [Some 2021%Z; Some 2022%Z] /\
  exists fig,
    fst (update_graph (Some [2022%Z]) None None "All" (booted feed)) = inr fig /\
    title fig = "Monthly Count of Exploited CVEs" /\
    1 <= Spec.sum_counts (data fig).
Proof.
  assert (H4 : years_of (loaded feed) = inr [Some 2021%Z; Some 2022%Z])
    by (vm_compute; reflexivity).
  assert (H5 : In (Some 2022%Z) [Some 2021%Z; Some 2022%Z]) by (right; left; reflexivity).
  split; [exact booted_feed_df|]. split; [exact loaded_feed_columns|].
  split; [exact loaded_feed_dated|]. split; [exact H4|]. split; [exact H5|].
  exact (X8_year_option_matches _ _ _ _ booted_feed_df loaded_feed_columns
           loaded_feed_dated H4 H5).
Defined.

Lemma X9_all_years_is_no_year_witness :
  df_is (booted feed) (loaded feed) /\
  has_kev_columns (loaded feed) = true /\
  dated (loaded feed) /\
  years_of (loaded feed) = inr (map Some [2021%Z; 2022%Z]) /\
  fst (update_graph (Some [2021%Z; 2022%Z]) None None "Known" (booted feed))
  = fst (update_graph None None None "Known" (booted feed)).
Proof.
  assert (H4 : years_of (loaded feed) = inr (map Some [2021%Z; 2022%Z]))
    by (vm_compute; reflexivity).
  split; [exact booted_feed_df|]. split; [exact loaded_feed_columns|].
  split; [exact loaded_feed_dated|]. split; [exact H4|].
  exact (X9_all_years_is_no_year None None "Known" _ _ _ booted_feed_df
           loaded_feed_columns loaded_feed_dated H4).
Defined.

Lemma X10_selections_are_sets_witness :
  df_is (booted feed) (loaded feed) /\
  has_kev_columns (loaded feed) = true /\
  (forall y, In y (items (Some [2021%Z; 2022%Z]))
             <-> In y (items (Some [2022%Z; 2021%Z; 2022%Z]))) /\
  (forall v, In v (items (Some ["Acme"])) <-> In v (items (Some ["Acme"; "Acme"]))) /\
  (forall c : string, In c (items None) <-> In c (items (Some []))) /\
  fst (update_graph (Some [2021%Z; 2022%Z]) (Some ["Acme"]) None "All" (booted feed))
  = fst (update_graph (Some [2022%Z; 2021%Z; 2022%Z]) (Some ["Acme"; "Acme"]) (Some [])
           "All" (booted feed)).
Proof.
  assert (H3 : forall y, In y (items (Some [2021%Z; 2022%Z]))
                         <-> In y (items (Some [2022%Z; 2021%Z; 2022%Z])))
    by (intros y; cbn [items In]; tauto).
  assert (H4 : forall v, In v (items (Some ["Acme"])) <-> In v (items (Some ["Acme"; "Acme"])))
    by (intros v; cbn [items In]; tauto).
  assert (H5 : forall c : string, In c (items None) <-> In c (items (Some [])))
    by (intros c; cbn [items In]; tauto).
  split; [exact booted_feed_df|]. split; [exact loaded_feed_columns|].
  split; [exact H3|]. split; [exact H4|]. split; [exact H5|].
  exact (X10_selections_are_sets _ _ _ _ _ _ "All" _ _ booted_feed_df
           loaded_feed_columns H3 H4 H5).
Defined.

Lemma X11_other_mode_is_all_witness :
  df_is (booted feed) (loaded feed) /\
  has_kev_columns (loaded feed) = true /\
  "known" <> "Known" /\ "known" <> "Unknown" /\
  fst (update_graph (Some [2022%Z]) (Some ["Acme"]) (Some ["CWE-79"]) "known" (booted feed))
  = fst (update_graph (Some [2022%Z]) (Some ["Acme"]) (Some ["CWE-79"]) "All" (booted feed)) /\
  exists fig,
    fst (update_graph (Some [2022%Z]) (Some ["Acme"]) (Some ["CWE-79"]) "known" (booted feed))
    = inr fig.
Proof.
  assert (H3 : "known" <> "Known") by discriminate.
  assert (H4 : "known" <> "Unknown") by discriminate.
  split; [exact booted_feed_df|]. split; [exact loaded_feed_columns|].
  split; [exact H3|]. split; [exact H4|].
  exact (X11_other_mode_is_all (Some [2022%Z]) (Some ["Acme"]) (Some ["CWE-79"]) "known"
           _ _ booted_feed_df loaded_feed_columns H3 H4).
Defined.

Lemma X12_row_order_irrelevant_witness :
  df_is (booted feed) (loaded feed) /\
  has_kev_columns (loaded feed) = true /\
  df_is booted_reversed feed_reversed /\
  has_kev_columns feed_reversed = true /\
  Permutation (rows (loaded feed)) (rows feed_reversed) /\
  fst (update_graph None (Some ["Acme"]) None "All" (booted feed))
  = fst (update_graph None (Some ["Acme"]) None "All" booted_reversed).
Proof.
  assert (H3 : df_is booted_reversed feed_reversed) by reflexivity.
  assert (H4 : has_kev_columns feed_reversed = true) by (vm_compute; reflexivity).
  assert (H5 : Permutation (rows (loaded feed)) (rows feed_reversed))
    by (apply Permutation_rev).
  split; [exact booted_feed_df|]. split; [exact loaded_feed_columns|].
  split; [exact H3|]. split; [exact H4|]. split; [exact H5|].
  exact (X12_row_order_irrelevant None (Some ["Acme"]) None "All" _ _ _ _
           booted_feed_df loaded_feed_columns H3 H4 H5).
Defined.

Lemma X13_placeholder_iff_no_match_witness :
  df_is (booted feed) (loaded feed) /\
  has_kev_columns (loaded feed) = true /\
  match fst (update_graph (Some [2022%Z]) (Some ["Acme"]) None "Known" (booted feed)) with
  | inr fig =>
      (title fig = "No data matches the selected filters." <->
       List.filter (Spec.satisfies (Some [2022%Z]) (Some ["Acme"]) None "Known")
         (rows (loaded feed)) = []) /\
      (title fig = "No data matches the selected filters." -> data fig = []) /\
      (title fig <> "No data matches the selected filters." ->
       title fig = "Monthly Count of Exploited CVEs")
  | inl e =>
      e = KeyError "knownRansomwareCampaignUse" /\
      List.filter (Spec.satisfies (Some [2022%Z]) (Some ["Acme"]) None "Known")
        (rows (loaded feed)) = []
  end.
Proof.
  split; [exact booted_feed_df|]. split; [exact loaded_feed_columns|].
  exact (X13_placeholder_iff_no_match (Some [2022%Z]) (Some ["Acme"]) None "Known" _ _
           booted_feed_df loaded_feed_columns).
Defined.


Lemma X17_more_fragments_keep_more_witness :
  df_is (booted feed) (loaded feed) /\
  has_kev_columns (loaded feed) = true /\
  truthy (Some ["CWE-79"]) = true /\
  incl (items (Some ["CWE-79"])) (items (Some ["CWE-787"; "CWE-79"])) /\
  match fst (kept_rows None None (Some ["CWE-79"]) "All" (booted feed)),
        fst (kept_rows None None (Some ["CWE-787"; "CWE-79"]) "All" (booted feed)) with
  | inr kept, inr kept' =>
      kept = List.filter (fun r => cwe_lambda (items (Some ["CWE-79"])) (cwes r)) kept'
  | inl e, inl e' => e = e'
  | _, _ => False
  end.
Proof.
  assert (H3 : truthy (Some ["CWE-79"]) = true) by reflexivity.
  assert (H4 : incl (items (Some ["CWE-79"])) (items (Some ["CWE-787"; "CWE-79"])))
    by (intros x Hx; cbn [items In] in *; tauto).
  split; [exact booted_feed_df|]. split; [exact loaded_feed_columns|].
  split; [exact H3|]. split; [exact H4|].
  exact (X17_more_fragments_keep_more None None _ _ "All" _ _ booted_feed_df
           loaded_feed_columns H3 H4).
Defined.

Lemma X18_empty_fragment_matches_all_witness :
  df_is (booted feed) (loaded feed) /\
  has_kev_columns (loaded feed) = true /\
  In EmptyString (items (Some [EmptyString])) /\
  match fst (kept_rows None None (Some [EmptyString]) "Known" (booted feed)) with
  | inr kept => kept = List.filter (Spec.satisfies None None None "Known") (rows (loaded feed))
  | inl e =>
      e = KeyError "knownRansomwareCampaignUse" /\
      columns_lost None None (Some [EmptyString]) (loaded feed) = true /\
      mode_reads_column "Known" = true
  end.
Proof.
  assert (H3 : In EmptyString (items (Some [EmptyString]))) by (left; reflexivity).
  split; [exact booted_feed_df|]. split; [exact loaded_feed_columns|]. split; [exact H3|].
  exact (X18_empty_fragment_matches_all None None _ "Known" _ _ booted_feed_df
           loaded_feed_columns H3).
Defined.

Lemma X19_counts_skip_undated_witness :
  df_is booted_undated undated /\
  has_kev_columns undated = true /\
  match fst (update_graph None (Some ["Acme"]) None "All" booted_undated) with
  | inr fig =>
      Spec.sum_counts (data fig)
      = List.length
          (List.filter (fun r => Spec.satisfies None (Some ["Acme"]) None "All" r
                                 && negb (is_NaT (dateAdded r))) (rows undated))
  | inl e => e = KeyError "knownRansomwareCampaignUse"
  end.
Proof.
  assert (H1 : df_is booted_undated undated) by reflexivity.
  assert (H2 : has_kev_columns undated = true) by reflexivity.
  split; [exact H1|]. split; [exact H2|].
  exact (X19_counts_skip_undated None (Some ["Acme"]) None "All" _ _ H1 H2).
Defined.

Lemma X20_sorted_ignores_input_order_witness :
  strict_total Z.ltb /\
  NoDup [3%Z; 1%Z; 2%Z] /\
  Permutation [3%Z; 1%Z; 2%Z] (rev [3%Z; 1%Z; 2%Z]) /\
  PySeq.sorted Z.ltb [3%Z; 1%Z; 2%Z] = PySeq.sorted Z.ltb (rev [3%Z; 1%Z; 2%Z]).
Proof.
  assert (H2 : NoDup [3%Z; 1%Z; 2%Z]).
  { repeat (apply NoDup_cons_2;
            [intros H; apply list_elem_of_In in H; cbn [In] in H; intuition discriminate|]).
    apply NoDup_nil_2. }
  assert (H3 : Permutation [3%Z; 1%Z; 2%Z] (rev [3%Z; 1%Z; 2%Z])) by apply Permutation_rev.
  split; [exact Z_ltb_strict_total|]. split; [exact H2|]. split; [exact H3|].
  exact (X20_sorted_ignores_input_order Z.ltb _ _ Z_ltb_strict_total H2 H3).
Defined.

Lemma X21_all_vendors_selected_witness :
  df_is (booted feed) (loaded feed) /\
  has_kev_columns (loaded feed) = true /\
  vendors_of (loaded feed) = inr ["Acme"; "Globex"] /\
  fst (kept_rows None (Some ["Acme"; "Globex"]) None "All" (booted feed))
  = inr (List.filter (fun r => match vendorProject r with
                               | Some _ => true
                               | None => false
                               end) (rows (loaded feed))).
Proof.
  assert (H3 : vendors_of (loaded feed) = inr ["Acme"; "Globex"]) by (vm_compute; reflexivity).
  split; [exact booted_feed_df|]. split; [exact loaded_feed_columns|]. split; [exact H3|].
  exact (X21_all_vendors_selected _ _ _ booted_feed_df loaded_feed_columns H3).
Defined.

Lemma X22_match_never_raises_witness :
  df_is (booted feed) (loaded feed) /\
  has_kev_columns (loaded feed) = true /\
  dated (loaded feed) /\
  In no_vendor (rows (loaded feed)) /\
  Spec.satisfies (Some [2022%Z]) None (Some ["CWE-7"]) "Known" no_vendor = true /\
  exists fig,
    fst (update_graph (Some [2022%Z]) None (Some ["CWE-7"]) "Known" (booted feed)) = inr fig /\
    title fig = "Monthly Count of Exploited CVEs" /\
    1 <= Spec.sum_counts (data fig) /\
    fig = mkFigure "Monthly Count of Exploited CVEs"
            (monthly (List.filter (Spec.satisfies (Some [2022%Z]) None (Some ["CWE-7"]) "Known")
                        (rows (loaded feed)))).
Proof.
  assert (H4 : In no_vendor (rows (loaded feed))) by (vm_compute; auto).
  assert (H5 : Spec.satisfies (Some [2022%Z]) None (Some ["CWE-7"]) "Known" no_vendor = true)
    by (vm_compute; reflexivity).
  split; [exact booted_feed_df|]. split; [exact loaded_feed_columns|].
  split; [exact loaded_feed_dated|]. split; [exact H4|]. split; [exact H5|].
  exact (X22_match_never_raises _ _ _ _ _ _ _ booted_feed_df loaded_feed_columns
           loaded_feed_dated H4 H5).
Defined.


End MoreWitnesses.
